(** * Verification of [internal/util/env.go]

    A shallow embedding of the environment-resolution layer of the
    devtools [util] package: root lookup, the derived-path helpers,
    manifest name resolution, the data directory and configuration load,
    and the construction of the vanadium build environment.

    The Go functions read the process environment and the file system and
    return [(value, error)] pairs.  They are embedded in a small
    state-and-error monad over a record [World] that holds everything the
    code reads from outside: the process environment, the runtime
    constants and the file-system answers. *)

From stdpp Require Import base strings list gmap.
From Equations Require Import Equations.

Set Default Proof Using "Type".


(** ** Go's [strings] package *)

Module strings.

(** [strings.HasPrefix]. *)
Definition HasPrefix (s prefix : string) : bool := String.prefix prefix s.

(** [strings.TrimPrefix]: [s] without the leading [prefix], or [s] itself
    when it does not start with [prefix]. *)
Definition TrimPrefix (s prefix : string) : string :=
  if HasPrefix s prefix
  then String.substring (String.length prefix)
                        (String.length s - String.length prefix) s
  else s.

(** [strings.Join]. *)
Fixpoint Join (elems : list string) (sep : string) : string :=
  match elems with
  | [] => ""
  | [e] => e
  | e :: rest => e +:+ sep +:+ Join rest sep
  end.

(** The scan of [strings.Split] for a non-empty separator: [skip] counts
    the bytes of a separator occurrence still to be dropped, [cur] is the
    token read so far. *)
Fixpoint split_from (sep : string) (skip : nat) (cur s : string)
  : list string :=
  match s with
  | EmptyString => [cur]
  | String c s' =>
      match skip with
      | S k => split_from sep k cur s'
      | O =>
          if String.prefix sep s
          then cur :: split_from sep (String.length sep - 1) "" s'
          else split_from sep 0 (cur +:+ String c "") s'
      end
  end.

(** The byte of [s] at index [i] lies between [lo] and [hi]. *)
Definition byte_within (s : string) (i lo hi : nat) : bool :=
  match String.get i s with
  | Some c => let b := Ascii.nat_of_ascii c in (lo <=? b) && (b <=? hi)
  | None => false
  end.

(** The number of bytes [utf8.DecodeRuneInString] takes from the front of
    [s]: the length of a well-formed UTF-8 sequence, and one byte where
    the sequence is not well formed. *)
Definition rune_len (s : string) : nat :=
  match s with
  | EmptyString => 0
  | String c _ =>
      let b := Ascii.nat_of_ascii c in
      let '(size, lo, hi) :=
        if b <? 194 then (1, 0, 0)
        else if b <? 224 then (2, 128, 191)
        else if b =? 224 then (3, 160, 191)
        else if b =? 237 then (3, 128, 159)
        else if b <? 240 then (3, 128, 191)
        else if b =? 240 then (4, 144, 191)
        else if b <? 244 then (4, 128, 191)
        else if b =? 244 then (4, 128, 143)
        else (1, 0, 0) in
      if size =? 1 then 1
      else if negb (byte_within s 1 lo hi) then 1
      else if size =? 2 then 2
      else if negb (byte_within s 2 128 191) then 1
      else if size =? 3 then 3
      else if negb (byte_within s 3 128 191) then 1
      else 4
  end.

(** The loop of [strings.explode]: [more] counts the bytes of the current
    UTF-8 sequence still to be read, [cur] is what was read of it. *)
Fixpoint explode_from (more : nat) (cur s : string) : list string :=
  match s with
  | EmptyString => if decide (cur = "") then [] else [cur]
  | String c s' =>
      match more with
      | O =>
          match rune_len s with
          | S (S k) => explode_from (S k) (String c "") s'
          | _ => String c "" :: explode_from 0 "" s'
          end
      | S O => (cur +:+ String c "") :: explode_from 0 "" s'
      | S k => explode_from k (cur +:+ String c "") s'
      end
  end.

Definition explode (s : string) : list string := explode_from 0 "" s.

(** [strings.Split]: the substrings between the occurrences of [sep]; an
    empty separator splits after every UTF-8 sequence. *)
Definition Split (s sep : string) : list string :=
  if decide (sep = "") then explode s else split_from sep 0 "" s.

End strings.

(** ** Go's [path/filepath] package (Unix) *)

Module filepath.

Definition IsAbs (path : string) : bool := strings.HasPrefix path "/".

(** One path element of [filepath.Clean].  [out] is the cleaned path so
    far, innermost element first.  Empty and [.] elements are dropped; a
    [..] element removes the last real element, is kept in front of a
    relative path that has none, and is dropped at the root. *)
Definition clean_elem (rooted : bool) (out : list string) (e : string)
  : list string :=
  if decide (e = "") then out
  else if decide (e = ".") then out
  else if decide (e = "..") then
    match out with
    | top :: rest => if decide (top = "..") then e :: out else rest
    | [] => if rooted then [] else [e]
    end
  else e :: out.

(** [filepath.Clean]. *)
Definition Clean (path : string) : string :=
  if decide (path = "") then "."
  else
    let rooted := IsAbs path in
    let out := foldl (clean_elem rooted) [] (strings.Split path "/") in
    let body := strings.Join (rev out) "/" in
    if rooted then "/" +:+ body
    else if decide (body = "") then "." else body.

(** [filepath.Join]: leading empty elements are ignored, the rest is
    joined with the separator and cleaned. *)
Fixpoint Join (elem : list string) : string :=
  match elem with
  | [] => ""
  | e :: rest =>
      if decide (e = "") then Join rest
      else Clean (strings.Join elem "/")
  end.

End filepath.

Example Split_ex : strings.Split "a::b:" ":" = ["a"; ""; "b"; ""].
Proof. reflexivity. Qed.

Example Split_runes_ex :
  strings.Split "aé€𝄞b" "" = ["a"; "é"; "€"; "𝄞"; "b"] /\
  map String.length (strings.Split "é€𝄞" "") = [2; 3; 4] /\
  strings.Split "" "" = [].
Proof. repeat split. Qed.

Example Join_ex : filepath.Join ["/v23"; "release/go"] = "/v23/release/go".
Proof. reflexivity. Qed.

Example Clean_ex :
  map filepath.Clean ["/a/../../b/./c/"; "a//b/../.."; "../../a/.."; "/"; ""]
  = ["/b/c"; "."; "../.."; "/"; "."].
Proof. reflexivity. Qed.

Example TrimPrefix_ex :
  map (fun s => strings.TrimPrefix s "v") ["v7"; "7"; "vv6"; ""; "v"]
  = ["7"; "7"; "v6"; ""; ""].
Proof. reflexivity. Qed.

(** ** Data model *)

(** Modelled from the spec: the type [Platform] is declared in another file
    of the package.  A platform descriptor has three fields, the operating
    system, the architecture and an optional sub-architecture; these are
    the fields [env.go] reads. *)
Record Platform := mkPlatform { Arch : string; OS : string; SubArch : string }.

#[global] Instance Platform_eq_dec : EqDecision Platform.
Proof. solve_decision. Defined.

(** Modelled from the spec: the types [Project], [Tool], [Projects] and
    [Tools] are declared in another file of the package.  The registry maps
    a tool name to its project and data subdirectory, and a project name to
    its path; [DataDirPath] also reads the name of a tool.  The maps hold
    struct values, so that a failed lookup yields the zero value. *)
Module Project.
Record t := mk { Path : string }.
End Project.

Module Tool.
Record t := mk { Name : string; Project : string; Data : string }.
Definition zero : t := mk "" "" "".
End Tool.

Abbreviation Projects := (gmap string Project.t).
Abbreviation Tools := (gmap string Tool.t).

(** Modelled from the spec: the type [Config] is declared in another file
    of the package.  It is read through two accessors, the workspaces of
    the Go search path and those of the VDL search path. *)
Record Config := mkConfig {
  GoWorkspaces : list string;
  VDLWorkspaces : list string
}.

(** [tool.Context] belongs to another package and is only handed on to
    [readManifest]; it is kept as a label. *)
Inductive Context := tool_Context (label : string).

(** An error of the [os] package: its text, and what [os.IsNotExist] says
    about it. *)
Record os_error := mk_os_error { IsNotExist : bool; os_msg : string }.

(** The errors of this file, one constructor per site that builds one, with
    the arguments the site passes.  Two [fmt.Errorf] calls have a verb more
    than arguments: [ErrEvalSymlinks] receives the root only and
    [ErrStatManifest] the [os] error only. *)
Inductive error :=
| ErrNotSet (var : string)
| ErrEvalSymlinks (root : string)
| ErrStatManifest (cause : os_error)
| ErrToolNotFound (name : string)
| ErrProjectNotFound (name : string)
| ErrReadFile (path : string) (cause : os_error)
| ErrUnmarshal (content : string) (cause : string)
| ErrStatDir (dir : string) (cause : os_error)
| UnsupportedPlatformErr (platform : Platform).

#[global] Instance os_error_eq_dec : EqDecision os_error.
Proof. solve_decision. Defined.
#[global] Instance error_eq_dec : EqDecision error.
Proof. solve_decision. Defined.

(** The error taxonomy of the specification, by the site of the error. *)
Inductive ErrorKind :=
| ConfigError | IOError | ParseError | NotFoundError | UnsupportedPlatformError.

Definition kind (e : error) : ErrorKind :=
  match e with
  | ErrNotSet _ => ConfigError
  | ErrEvalSymlinks _ | ErrStatManifest _ | ErrReadFile _ _ | ErrStatDir _ _ =>
      IOError
  | ErrUnmarshal _ _ => ParseError
  | ErrToolNotFound _ | ErrProjectNotFound _ => NotFoundError
  | UnsupportedPlatformErr _ => UnsupportedPlatformError
  end.

(** The platform an [UnsupportedPlatformErr] names. *)
Definition rejected (e : error) : option Platform :=
  match e with UnsupportedPlatformErr p => Some p | _ => None end.

Inductive result (A : Type) :=
| Ok (a : A)
| Err (e : error).
Arguments Ok {A} a.
Arguments Err {A} e.

(** Everything the code reads from outside. *)
Record World := mkWorld {
  (** the process environment, [os.Getenv] *)
  environ : gmap string string;
  (** [runtime.GOARCH] and [runtime.GOOS] *)
  GOARCH : string;
  GOOS : string;
  (** the package variable [tool.Name] *)
  tool_Name : string;
  (** [filepath.EvalSymlinks] *)
  fs_EvalSymlinks : string -> os_error + string;
  (** [os.Stat]: [None] when the file is there *)
  fs_Stat : string -> option os_error;
  (** [ioutil.ReadFile] *)
  fs_ReadFile : string -> os_error + string;
  (** [readManifest ctx false], defined in another file of the package;
      what it returns for a context is an input of the model *)
  manifest : Context -> result (Projects * Tools);
  (** [json.Unmarshal] into a [Config] *)
  json_Unmarshal : string -> string + Config
}.

(** ** The monad: a world is threaded through, a failure ends the call *)

Definition M (A : Type) : Type := World -> result A * World.

Definition ret {A} (a : A) : M A := fun w => (Ok a, w).
Definition fail {A} (e : error) : M A := fun w => (Err e, w).
Definition bind {A B} (m : M A) (k : A -> M B) : M B :=
  fun w =>
    match m w with
    | (Ok a, w') => k a w'
    | (Err e, w') => (Err e, w')
    end.
Definition gets {A} (f : World -> A) : M A := fun w => (Ok (f w), w).

Notation "x <- m ;; k" := (bind m (fun x => k))
  (at level 100, m at next level, right associativity).

(** The reads of the outside. *)
Definition os_Getenv (key : string) : M string :=
  gets (fun w => default "" (environ w !! key)).
Definition filepath_EvalSymlinks (path : string) : M (os_error + string) :=
  gets (fun w => fs_EvalSymlinks w path).
Definition os_Stat (path : string) : M (option os_error) :=
  gets (fun w => fs_Stat w path).
Definition ioutil_ReadFile (path : string) : M (os_error + string) :=
  gets (fun w => fs_ReadFile w path).
Definition readManifest (ctx : Context) : M (Projects * Tools) :=
  fun w => (manifest w ctx, w).
Definition Unmarshal (data : string) : M (string + Config) :=
  gets (fun w => json_Unmarshal w data).

(** ** The environment snapshot *)

Module envutil.

(** Modelled from the spec: [envutil.Snapshot] and its methods are
    declared in another package of the repository.  A snapshot is a
    mutable mapping from variable names to values, initialised as a copy
    of the process environment; a value is set directly, or read and
    written as a list of tokens: reading splits on the separator, a
    variable that is not set or empty counting as no tokens, and writing
    joins the tokens with the separator. *)
Definition Snapshot := gmap string string.

Definition NewSnapshotFromOS : M Snapshot := gets environ.

Definition Get (s : Snapshot) (key : string) : string :=
  default "" (s !! key).

Definition Set_ (s : Snapshot) (key value : string) : Snapshot :=
  <[key := value]> s.

Definition GetTokens (s : Snapshot) (key separator : string) : list string :=
  let value := Get s key in
  if decide (value = "") then [] else strings.Split value separator.

Definition SetTokens (s : Snapshot) (key : string) (tokens : list string)
    (separator : string) : Snapshot :=
  Set_ s key (strings.Join tokens separator).

End envutil.
Import envutil.

(** ** [env.go] *)

Definition rootEnv : string := "V23_ROOT".

(** [V23Root] returns the root of the vanadium universe. *)
Definition V23Root : M string :=
  root <- os_Getenv rootEnv ;;
  if decide (root = "") then fail (ErrNotSet rootEnv)
  else
    r <- filepath_EvalSymlinks root ;;
    match r with
    | inl _ => fail (ErrEvalSymlinks root)
    | inr result => ret result
    end.

Definition LocalManifestFile : M string :=
  root <- V23Root ;;
  ret (filepath.Join [root; ".local_manifest"]).

Definition LocalSnapshotDir : M string :=
  root <- V23Root ;;
  ret (filepath.Join [root; ".snapshot"]).

Definition ManifestDir : M string :=
  root <- V23Root ;;
  ret (filepath.Join [root; ".manifest"; "v2"]).

Definition ManifestFile (name : string) : M string :=
  dir <- ManifestDir ;;
  ret (filepath.Join [dir; name]).

Definition RemoteSnapshotDir : M string :=
  manifestDir <- ManifestDir ;;
  ret (filepath.Join [manifestDir; "snapshot"]).

(** The depth of the calls [ResolveManifestPath] can still make to itself:
    only the empty name falls back, to a name that is not empty. *)
Definition fallbacks (name : string) : nat :=
  if decide (name = "") then 1 else 0.

(** [ResolveManifestPath] resolves the given manifest name to an absolute
    path in the local filesystem.  The call to itself is written with the
    world it runs in, which the termination argument needs. *)
Equations ResolveManifestPath (name : string) (w : World)
  : result string * World by wf (fallbacks name) lt :=
ResolveManifestPath name w with decide (name = "") := {
  | right _ =>
      (if filepath.IsAbs name then ret name else ManifestFile name) w
  | left _ =>
      (path <- LocalManifestFile ;;
       st <- os_Stat path ;;
       match st with
       | Some err =>
           if IsNotExist err then fun w' => ResolveManifestPath "default" w'
           else fail (ErrStatManifest err)
       | None => ret path
       end) w
  }.

(** [DataDirPath] returns the path to the data directory of the given
    tool.  When the tool is not in the manifest, the error is built from
    the looked-up value, which is then the zero [Tool]. *)
Definition DataDirPath (ctx : Context) (toolName : string) : M string :=
  pt <- readManifest ctx ;;
  let projects := pt.1 in
  let tools := pt.2 in
  let toolName := if decide (toolName = "") then "v23" else toolName in
  match tools !! toolName with
  | None => fail (ErrToolNotFound (Tool.Name Tool.zero))
  | Some tool =>
      let projectName := Tool.Project tool in
      match projects !! projectName with
      | None => fail (ErrProjectNotFound projectName)
      | Some project =>
          ret (filepath.Join [Project.Path project; Tool.Data tool])
      end
  end.

(** [LoadConfig] loads the tools configuration file into memory. *)
Definition LoadConfig (ctx : Context) : M Config :=
  name <- gets tool_Name ;;
  dataDir <- DataDirPath ctx name ;;
  let configPath := filepath.Join [dataDir; "conf.json"] in
  r <- ioutil_ReadFile configPath ;;
  match r with
  | inl err => fail (ErrReadFile configPath err)
  | inr configBytes =>
      u <- Unmarshal configBytes ;;
      match u with
      | inl err => fail (ErrUnmarshal configBytes err)
      | inr config => ret config
      end
  end.

(** [BuildCopRotationPath] returns the path to the build cop rotation
    file. *)
Definition BuildCopRotationPath (ctx : Context) : M string :=
  name <- gets tool_Name ;;
  dataDir <- DataDirPath ctx name ;;
  ret (filepath.Join [dataDir; "buildcop.xml"]).

Definition VanadiumGitRepoHost : string :=
  "https://vanadium.googlesource.com/".

(** [setAndroidEnv] sets the environment variables used for android
    cross-compilation. *)
Definition setAndroidEnv (env : Snapshot) (platform : Platform) : M Snapshot :=
  root <- V23Root ;;
  let env := Set_ env "CGO_ENABLED" "1" in
  let env := Set_ env "GOOS" (OS platform) in
  let env := Set_ env "GOARCH" (Arch platform) in
  let env := Set_ env "GOARM" (strings.TrimPrefix (SubArch platform) "v") in
  let path := GetTokens env "PATH" ":" in
  let path :=
    [filepath.Join [root; "environment"; "android"; "go"; "bin"]] ++ path in
  ret (SetTokens env "PATH" path ":").

(** [setArmEnv] sets the environment variables used for arm
    cross-compilation. *)
Definition setArmEnv (env : Snapshot) (platform : Platform) : M Snapshot :=
  root <- V23Root ;;
  let env := Set_ env "GOARCH" (Arch platform) in
  let env := Set_ env "GOARM" (strings.TrimPrefix (SubArch platform) "v") in
  let env := Set_ env "GOOS" (OS platform) in
  let path := GetTokens env "PATH" ":" in
  let path :=
    [filepath.Join [root; "third_party"; "cout"; "xgcc"; "cross_arm"];
     filepath.Join [root; "third_party"; "repos"; "go_arm"; "bin"]] ++ path in
  ret (SetTokens env "PATH" path ":").

(** The loop of [setGoPath] and [setVdlPath]: one entry is appended for
    each workspace. *)
Definition append_workspaces (root : string) (tokens workspaces : list string)
  : list string :=
  foldl (fun tokens workspace => tokens ++ [filepath.Join [root; workspace]])
        tokens workspaces.

(** [setGoPath] adds the paths to vanadium Go workspaces to the GOPATH
    variable. *)
Definition setGoPath (env : Snapshot) (root : string) (config : Config)
  : Snapshot :=
  let gopath := GetTokens env "GOPATH" ":" in
  let gopath := append_workspaces root gopath (GoWorkspaces config) in
  SetTokens env "GOPATH" gopath ":".

(** [setVdlPath] adds the paths to vanadium VDL workspaces to the VDLPATH
    variable. *)
Definition setVdlPath (env : Snapshot) (root : string) (config : Config)
  : Snapshot :=
  let vdlpath := GetTokens env "VDLPATH" ":" in
  let vdlpath := append_workspaces root vdlpath (VDLWorkspaces config) in
  SetTokens env "VDLPATH" vdlpath ":".

(** [setNaclEnv] sets the environment variables used for nacl
    cross-compilation. *)
Definition setNaclEnv (env : Snapshot) (platform : Platform) : M Snapshot :=
  let env := Set_ env "GOARCH" (Arch platform) in
  let env := Set_ env "GOOS" (OS platform) in
  ret env.

(** [setSyncbaseCgoEnv] sets the CGO_ENABLED variable and adds the LevelDB
    libraries to the CGO_CFLAGS and CGO_LDFLAGS variables.  Its third
    parameter is called [arch]; the caller passes the platform's OS. *)
Definition setSyncbaseCgoEnv (env : Snapshot) (root arch : string)
  : M Snapshot :=
  let env := Set_ env "CGO_ENABLED" "1" in
  let cflags := GetTokens env "CGO_CFLAGS" " " in
  let ldflags := GetTokens env "CGO_LDFLAGS" " " in
  let dir := filepath.Join [root; "third_party"; "cout"; "leveldb"] in
  let finish (cflags ldflags : list string) : Snapshot :=
    let env := SetTokens env "CGO_CFLAGS" cflags " " in
    SetTokens env "CGO_LDFLAGS" ldflags " " in
  st <- os_Stat dir ;;
  match st with
  | Some err =>
      if negb (IsNotExist err) then fail (ErrStatDir dir err)
      else ret (finish cflags ldflags)
  | None =>
      let cflags := cflags ++ [filepath.Join ["-I" +:+ dir; "include"]] in
      let ldflags := ldflags ++ [filepath.Join ["-L" +:+ dir; "lib"]] in
      let ldflags :=
        if decide (arch = "linux")
        then ldflags ++ ["-Wl,-rpath"; filepath.Join [dir; "lib"]]
        else ldflags in
      ret (finish cflags ldflags)
  end.

(** [VanadiumEnvironment] returns the environment variables setting for
    vanadium. *)
Definition VanadiumEnvironment (ctx : Context) (platform : Platform)
  : M Snapshot :=
  env <- NewSnapshotFromOS ;;
  root <- V23Root ;;
  config <- LoadConfig ctx ;;
  let env := setGoPath env root config in
  let env := setVdlPath env root config in
  env <- (if bool_decide (OS platform = "darwin")
             || bool_decide (OS platform = "linux")
          then setSyncbaseCgoEnv env root (OS platform)
          else ret env) ;;
  goarch <- gets GOARCH ;;
  goos <- gets GOOS ;;
  if bool_decide (Arch platform = goarch) && bool_decide (OS platform = goos)
  then ret env
  else if bool_decide (Arch platform = "arm")
          && bool_decide (OS platform = "linux")
  then setArmEnv env platform
  else if bool_decide (Arch platform = "arm")
          && bool_decide (OS platform = "android")
  then setAndroidEnv env platform
  else if (bool_decide (Arch platform = "386")
           || bool_decide (Arch platform = "amd64p32"))
          && bool_decide (OS platform = "nacl")
  then setNaclEnv env platform
  else fail (UnsupportedPlatformErr platform).


(** ** Concrete worlds used to exercise the statements *)

Module Sample.

Definition ctx : Context := tool_Context "sample".

Definition not_exist : os_error := mk_os_error true "no such file or directory".
Definition denied : os_error := mk_os_error false "permission denied".

Definition the_manifest : result (Projects * Tools) :=
  Ok (<["devtools" := Project.mk "/v23/release/go/src/v.io/x/devtools"]> ∅,
      <["v23" := Tool.mk "v23" "devtools" "data"]> ∅).

Definition the_config : Config :=
  mkConfig ["release/go"] ["release/go/src/v.io"].

Definition conf_json : string :=
  "/v23/release/go/src/v.io/x/devtools/data/conf.json".

(** An amd64/linux host whose root [/v23] is a real directory that holds
    the leveldb libraries but no local manifest. *)
Definition host : World := {|
  environ :=
    <["V23_ROOT" := "/v23"]>
      (<["PATH" := "/usr/bin:/bin"]> (<["GOPATH" := "/home/me/go"]> ∅));
  GOARCH := "amd64";
  GOOS := "linux";
  tool_Name := "";
  fs_EvalSymlinks := inr;
  fs_Stat := fun path =>
    if decide (path = "/v23/third_party/cout/leveldb") then None
    else Some not_exist;
  fs_ReadFile := fun path =>
    if decide (path = conf_json) then inr "{}" else inl not_exist;
  manifest := fun _ => the_manifest;
  json_Unmarshal := fun _ => inr the_config
|}.

(** The same host with other process environments or file systems. *)
Definition with_environ (e : gmap string string) (w : World) : World :=
  mkWorld e (GOARCH w) (GOOS w) (tool_Name w) (fs_EvalSymlinks w)
          (fs_Stat w) (fs_ReadFile w) (manifest w) (json_Unmarshal w).

Definition with_Stat (st : string -> option os_error) (w : World) : World :=
  mkWorld (environ w) (GOARCH w) (GOOS w) (tool_Name w) (fs_EvalSymlinks w)
          st (fs_ReadFile w) (manifest w) (json_Unmarshal w).

Definition with_EvalSymlinks (f : string -> os_error + string) (w : World)
  : World :=
  mkWorld (environ w) (GOARCH w) (GOOS w) (tool_Name w) f
          (fs_Stat w) (fs_ReadFile w) (manifest w) (json_Unmarshal w).

Definition with_manifest (m : Context -> result (Projects * Tools))
    (w : World) : World :=
  mkWorld (environ w) (GOARCH w) (GOOS w) (tool_Name w) (fs_EvalSymlinks w)
          (fs_Stat w) (fs_ReadFile w) m (json_Unmarshal w).

Definition with_runtime (arch os : string) (w : World) : World :=
  mkWorld (environ w) arch os (tool_Name w) (fs_EvalSymlinks w)
          (fs_Stat w) (fs_ReadFile w) (manifest w) (json_Unmarshal w).

(** Two platforms: one that is not supported, one that is a cross target. *)
Definition mips_linux : Platform := mkPlatform "mips" "linux" "".
Definition arm_linux_v6 : Platform := mkPlatform "arm" "linux" "v6".

(** The snapshot a run returned, if it returned one. *)
Definition snapshot_of (run : result Snapshot * World) : Snapshot :=
  match run.1 with
  | Ok env => env
  | Err _ => ∅
  end.

(** A host that is itself arm/linux. *)
Definition arm_host : World := with_runtime "arm" "linux" host.
Definition no_tools : World := with_manifest (fun _ => Ok (∅, ∅)) host.
Definition no_root : World := with_environ (<["PATH" := "/usr/bin"]> ∅) host.
Definition dangling : World := with_EvalSymlinks (fun _ => inl not_exist) host.
Definition unreadable : World := with_Stat (fun _ => Some denied) host.
Definition with_local_manifest : World := with_Stat (fun _ => None) host.

End Sample.

(** ** Running the monad *)

Lemma bind_Ok {A B} (m : M A) (k : A -> M B) w a w' :
  m w = (Ok a, w') -> bind m k w = k a w'.
Proof. unfold bind. intros ->. reflexivity. Qed.

Lemma bind_Err {A B} (m : M A) (k : A -> M B) w e w' :
  m w = (Err e, w') -> bind m k w = (Err e, w').
Proof. unfold bind. intros ->. reflexivity. Qed.

Lemma bind_Ok_inv {A B} (m : M A) (k : A -> M B) w b w2 :
  bind m k w = (Ok b, w2) ->
  exists a w1, m w = (Ok a, w1) /\ k a w1 = (Ok b, w2).
Proof.
  unfold bind. destruct (m w) as [[a|e] w1]; intros H.
  - exists a, w1. split; [reflexivity | exact H].
  - discriminate H.
Qed.

(** A computation that only reads: it hands back the world it was given.
    Nothing in [env.go] writes to the process environment, so every
    function of the file is of this kind. *)
Definition readonly {A} (m : M A) : Prop := forall w, (m w).2 = w.

Lemma readonly_run {A} (m : M A) w : readonly m -> m w = ((m w).1, w).
Proof. intros H. rewrite <- (H w) at 3. apply surjective_pairing. Qed.

Lemma readonly_ret {A} (a : A) : readonly (ret a).
Proof. intros w. reflexivity. Qed.

Lemma readonly_fail {A} e : readonly (@fail A e).
Proof. intros w. reflexivity. Qed.

Lemma readonly_gets {A} (f : World -> A) : readonly (gets f).
Proof. intros w. reflexivity. Qed.

Lemma readonly_bind {A B} (m : M A) (k : A -> M B) :
  readonly m -> (forall a, readonly (k a)) -> readonly (bind m k).
Proof.
  intros Hm Hk w. unfold bind. specialize (Hm w).
  destruct (m w) as [[a|e] w1]; simpl in Hm; subst w1.
  - apply Hk.
  - reflexivity.
Qed.

Lemma readonly_readManifest ctx : readonly (readManifest ctx).
Proof. intros w. reflexivity. Qed.

Create HintDb readonly.
#[export] Hint Resolve readonly_ret readonly_fail readonly_gets readonly_bind
  readonly_readManifest : readonly.

Ltac readonly_tac :=
  repeat first
    [ apply readonly_ret | apply readonly_fail | apply readonly_gets
    | apply readonly_readManifest
    | apply readonly_bind; [| intros ?]
    | progress eauto with readonly
    | match goal with
      | |- readonly (match ?x with _ => _ end) => destruct x
      | |- readonly (let _ := _ in _) => cbv zeta
      end ].

Lemma readonly_V23Root : readonly V23Root.
Proof. unfold V23Root, os_Getenv, filepath_EvalSymlinks. readonly_tac. Qed.
#[export] Hint Resolve readonly_V23Root : readonly.

Lemma readonly_LocalManifestFile : readonly LocalManifestFile.
Proof. unfold LocalManifestFile. readonly_tac. Qed.

Lemma readonly_LocalSnapshotDir : readonly LocalSnapshotDir.
Proof. unfold LocalSnapshotDir. readonly_tac. Qed.

Lemma readonly_ManifestDir : readonly ManifestDir.
Proof. unfold ManifestDir. readonly_tac. Qed.
#[export] Hint Resolve readonly_LocalManifestFile readonly_ManifestDir
  : readonly.

Lemma readonly_ManifestFile name : readonly (ManifestFile name).
Proof. unfold ManifestFile. readonly_tac. Qed.

Lemma readonly_RemoteSnapshotDir : readonly RemoteSnapshotDir.
Proof. unfold RemoteSnapshotDir. readonly_tac. Qed.
#[export] Hint Resolve readonly_ManifestFile : readonly.

Lemma ResolveManifestPath_eq name w :
  ResolveManifestPath name w =
  (if decide (name = "")
   then
     path <- LocalManifestFile ;;
     st <- os_Stat path ;;
     match st with
     | Some err =>
         if IsNotExist err then ResolveManifestPath "default"
         else fail (ErrStatManifest err)
     | None => ret path
     end
   else if filepath.IsAbs name then ret name else ManifestFile name) w.
Proof.
  rewrite ResolveManifestPath_equation_1.
  destruct (decide (name = "")); reflexivity.
Qed.

(** The fallback name is resolved without a further fallback. *)
Lemma ResolveManifestPath_default w :
  ResolveManifestPath "default" w = ManifestFile "default" w.
Proof. rewrite ResolveManifestPath_eq. reflexivity. Qed.

Lemma readonly_ResolveManifestPath name : readonly (ResolveManifestPath name).
Proof.
  intros w. rewrite ResolveManifestPath_eq.
  destruct (decide (name = "")) as [_|_].
  - revert w. change (readonly
      (path <- LocalManifestFile ;;
       st <- os_Stat path ;;
       match st with
       | Some err =>
           if IsNotExist err then ResolveManifestPath "default"
           else fail (ErrStatManifest err)
       | None => ret path
       end)).
    unfold os_Stat. readonly_tac.
    intros w. rewrite ResolveManifestPath_default. apply readonly_ManifestFile.
  - destruct (filepath.IsAbs name); [reflexivity | apply readonly_ManifestFile].
Qed.

Lemma readonly_DataDirPath ctx toolName : readonly (DataDirPath ctx toolName).
Proof. unfold DataDirPath. readonly_tac. Qed.
#[export] Hint Resolve readonly_DataDirPath : readonly.

Lemma readonly_LoadConfig ctx : readonly (LoadConfig ctx).
Proof. unfold LoadConfig, ioutil_ReadFile, Unmarshal. readonly_tac. Qed.

Lemma readonly_BuildCopRotationPath ctx : readonly (BuildCopRotationPath ctx).
Proof. unfold BuildCopRotationPath. readonly_tac. Qed.

Lemma readonly_setAndroidEnv env p : readonly (setAndroidEnv env p).
Proof. unfold setAndroidEnv. readonly_tac. Qed.

Lemma readonly_setArmEnv env p : readonly (setArmEnv env p).
Proof. unfold setArmEnv. readonly_tac. Qed.

Lemma readonly_setNaclEnv env p : readonly (setNaclEnv env p).
Proof. unfold setNaclEnv. readonly_tac. Qed.

Lemma readonly_setSyncbaseCgoEnv env root arch :
  readonly (setSyncbaseCgoEnv env root arch).
Proof.
  unfold setSyncbaseCgoEnv, os_Stat. readonly_tac.
Qed.

#[export] Hint Resolve readonly_LoadConfig readonly_setAndroidEnv
  readonly_setArmEnv readonly_setNaclEnv readonly_setSyncbaseCgoEnv : readonly.

Lemma readonly_VanadiumEnvironment ctx p : readonly (VanadiumEnvironment ctx p).
Proof.
  unfold VanadiumEnvironment, NewSnapshotFromOS. readonly_tac.
Qed.

(** ** Root lookup *)

(** [m] fails in [w] with the error [e]. *)
Definition fails_with {A} (m : M A) (w : World) (e : error) : Prop :=
  m w = (Err e, w).

(** [m] returns [a] in [w]. *)
Definition returns {A} (m : M A) (w : World) (a : A) : Prop :=
  m w = (Ok a, w).

Lemma returns_unique {A} (m : M A) w a b :
  returns m w a -> returns m w b -> a = b.
Proof. unfold returns. intros Ha Hb. rewrite Ha in Hb. congruence. Qed.










Lemma VanadiumEnvironment_root_failure ctx p w e :
  fails_with V23Root w e -> fails_with (VanadiumEnvironment ctx p) w e.
Proof.
  intros H. unfold fails_with, VanadiumEnvironment.
  rewrite (bind_Ok _ _ w (environ w) w) by reflexivity.
  apply bind_Err, H.
Qed.




(** The build-rotation path is derived from the manifest, not from the root
    directly: a failure of [readManifest] is passed on as it is. *)
Lemma BuildCopRotationPath_manifest_failure ctx w e :
  manifest w ctx = Err e -> fails_with (BuildCopRotationPath ctx) w e.
Proof.
  intros H. unfold fails_with, BuildCopRotationPath, DataDirPath, readManifest,
    bind, gets. rewrite H. reflexivity.
Qed.

(** ** Derived paths and manifest name resolution *)

Lemma LocalManifestFile_returns w root :
  returns V23Root w root ->
  returns LocalManifestFile w (filepath.Join [root; ".local_manifest"]).
Proof. intros H. unfold returns, LocalManifestFile. rewrite (bind_Ok _ _ _ _ _ H). reflexivity. Qed.

Lemma ManifestDir_returns w root :
  returns V23Root w root ->
  returns ManifestDir w (filepath.Join [root; ".manifest"; "v2"]).
Proof. intros H. unfold returns, ManifestDir. rewrite (bind_Ok _ _ _ _ _ H). reflexivity. Qed.

Lemma ManifestFile_returns name w root :
  returns V23Root w root ->
  returns (ManifestFile name) w
          (filepath.Join [filepath.Join [root; ".manifest"; "v2"]; name]).
Proof.
  intros H. unfold returns, ManifestFile.
  rewrite (bind_Ok _ _ _ _ _ (ManifestDir_returns w root H)). reflexivity.
Qed.

Lemma IsAbs_nonempty name : filepath.IsAbs name = true -> name <> "".
Proof. intros H ->. discriminate H. Qed.

Lemma ResolveManifestPath_abs name w :
  filepath.IsAbs name = true -> returns (ResolveManifestPath name) w name.
Proof.
  intros Habs. unfold returns. rewrite ResolveManifestPath_eq.
  destruct (decide (name = "")) as [Hempty|_].
  - destruct (IsAbs_nonempty name Habs Hempty).
  - rewrite Habs. reflexivity.
Qed.

Lemma ResolveManifestPath_rel name w :
  name <> "" -> filepath.IsAbs name = false ->
  ResolveManifestPath name w = ManifestFile name w.
Proof.
  intros Hne Habs. rewrite ResolveManifestPath_eq.
  destruct (decide (name = "")) as [|_]; [contradiction|].
  rewrite Habs. reflexivity.
Qed.

Lemma ResolveManifestPath_empty w root :
  returns V23Root w root ->
  ResolveManifestPath "" w =
  match fs_Stat w (filepath.Join [root; ".local_manifest"]) with
  | None => (Ok (filepath.Join [root; ".local_manifest"]), w)
  | Some err =>
      if IsNotExist err then ManifestFile "default" w
      else (Err (ErrStatManifest err), w)
  end.
Proof.
  intros Hroot. rewrite ResolveManifestPath_eq. simpl.
  rewrite (bind_Ok _ _ _ _ _ (LocalManifestFile_returns w root Hroot)).
  unfold bind, os_Stat, gets.
  destruct (fs_Stat w _) as [err|]; [| reflexivity].
  destruct (IsNotExist err); [| reflexivity].
  apply ResolveManifestPath_default.
Qed.

(** C7.  Manifest name resolution returns an absolute name unchanged, so
    that resolving it again gives the same path; joins a relative name
    that is not empty with the manifest directory [<root>/.manifest/v2];
    and for the empty name returns the local manifest file
    [<root>/.local_manifest] when it exists, and otherwise resolves the
    name ["default"], which is the plain manifest file of that name: a
    second fallback cannot happen, and resolution always ends with a
    result. *)
Theorem ResolveManifestPath_cases :
  (forall name w,
     filepath.IsAbs name = true -> returns (ResolveManifestPath name) w name) /\
  (forall name w path,
     filepath.IsAbs name = true ->
     returns (ResolveManifestPath name) w path ->
     returns (ResolveManifestPath path) w path) /\
  (forall name w root,
     name <> "" -> filepath.IsAbs name = false -> returns V23Root w root ->
     returns (ResolveManifestPath name) w
       (filepath.Join [filepath.Join [root; ".manifest"; "v2"]; name])) /\
  (forall w root,
     returns V23Root w root ->
     fs_Stat w (filepath.Join [root; ".local_manifest"]) = None ->
     returns (ResolveManifestPath "") w
       (filepath.Join [root; ".local_manifest"])) /\
  (forall w root err,
     returns V23Root w root ->
     fs_Stat w (filepath.Join [root; ".local_manifest"]) = Some err ->
     IsNotExist err = true ->
     ResolveManifestPath "" w = ResolveManifestPath "default" w /\
     ResolveManifestPath "default" w = ManifestFile "default" w /\
     returns (ResolveManifestPath "") w
       (filepath.Join [filepath.Join [root; ".manifest"; "v2"]; "default"])) /\
  fallbacks "default" = 0 /\
  (forall name w, exists r, ResolveManifestPath name w = (r, w)).
Proof.
  split; [| split; [| split; [| split; [| split; [| split]]]]].
  - apply ResolveManifestPath_abs.
  - intros name w path Habs Hres.
    pose proof (ResolveManifestPath_abs name w Habs) as Hname.
    unfold returns in *. rewrite Hname in Hres.
    injection Hres as <-. exact Hname.
  - intros name w root Hne Habs Hroot. unfold returns.
    rewrite (ResolveManifestPath_rel name w Hne Habs).
    apply ManifestFile_returns, Hroot.
  - intros w root Hroot Hstat. unfold returns.
    rewrite (ResolveManifestPath_empty w root Hroot), Hstat. reflexivity.
  - intros w root err Hroot Hstat Hnot.
    pose proof (ResolveManifestPath_empty w root Hroot) as Hempty.
    rewrite Hstat, Hnot in Hempty.
    split; [| split].
    + rewrite Hempty. symmetry. apply ResolveManifestPath_default.
    + apply ResolveManifestPath_default.
    + unfold returns. rewrite Hempty. apply ManifestFile_returns, Hroot.
  - reflexivity.
  - intros name w. exists (ResolveManifestPath name w).1.
    apply readonly_run, readonly_ResolveManifestPath.
Qed.

Lemma ResolveManifestPath_cases_witness :
  returns (ResolveManifestPath "/etc/manifest") Sample.no_root "/etc/manifest" /\
  returns (ResolveManifestPath "third_party") Sample.host
          "/v23/.manifest/v2/third_party" /\
  returns (ResolveManifestPath "") Sample.with_local_manifest
          "/v23/.local_manifest" /\
  returns (ResolveManifestPath "") Sample.host "/v23/.manifest/v2/default".
Proof.
  destruct ResolveManifestPath_cases as (Habs & _ & Hrel & Hlocal & Hdefault & _).
  assert (Hhost : returns V23Root Sample.host "/v23") by reflexivity.
  assert (Hlm : returns V23Root Sample.with_local_manifest "/v23")
    by reflexivity.
  split; [| split; [| split]].
  - apply Habs. reflexivity.
  - apply (Hrel "third_party" Sample.host "/v23");
      [discriminate | reflexivity | exact Hhost].
  - apply (Hlocal Sample.with_local_manifest "/v23"); [exact Hlm | reflexivity].
  - apply (Hdefault Sample.host "/v23" Sample.not_exist);
      [exact Hhost | reflexivity | reflexivity].
Defined.

(** ** The data directory and the configuration *)

(** The name [DataDirPath] looks up. *)
Definition looked_up (toolName : string) : string :=
  if decide (toolName = "") then "v23" else toolName.

Lemma DataDirPath_manifest ctx toolName w projects tools :
  manifest w ctx = Ok (projects, tools) ->
  DataDirPath ctx toolName w =
  match tools !! looked_up toolName with
  | None => (Err (ErrToolNotFound ""), w)
  | Some tool =>
      match projects !! Tool.Project tool with
      | None => (Err (ErrProjectNotFound (Tool.Project tool)), w)
      | Some project =>
          (Ok (filepath.Join [Project.Path project; Tool.Data tool]), w)
      end
  end.
Proof.
  intros Hm. unfold DataDirPath, readManifest, bind, looked_up. rewrite Hm.
  simpl. destruct (tools !! _) as [tool|]; [| reflexivity].
  destruct (projects !! _); reflexivity.
Qed.

Lemma LoadConfig_dataDir ctx w dataDir :
  returns (DataDirPath ctx (tool_Name w)) w dataDir ->
  LoadConfig ctx w =
  let configPath := filepath.Join [dataDir; "conf.json"] in
  match fs_ReadFile w configPath with
  | inl err => (Err (ErrReadFile configPath err), w)
  | inr configBytes =>
      match json_Unmarshal w configBytes with
      | inl err => (Err (ErrUnmarshal configBytes err), w)
      | inr config => (Ok config, w)
      end
  end.
Proof.
  intros Hdir. unfold LoadConfig.
  rewrite (bind_Ok _ _ w (tool_Name w) w) by reflexivity.
  rewrite (bind_Ok _ _ _ _ _ Hdir).
  unfold bind, ioutil_ReadFile, Unmarshal, gets. simpl.
  destruct (fs_ReadFile w _) as [err|bytes]; [reflexivity|].
  destruct (json_Unmarshal w bytes); reflexivity.
Qed.

Lemma LoadConfig_dataDir_failure ctx w e :
  fails_with (DataDirPath ctx (tool_Name w)) w e ->
  fails_with (LoadConfig ctx) w e.
Proof.
  intros Hdir. unfold fails_with, LoadConfig.
  rewrite (bind_Ok _ _ w (tool_Name w) w) by reflexivity.
  apply bind_Err, Hdir.
Qed.

(** C8.  With the manifest read, [LoadConfig] takes as data directory the
    path of the project that owns the tool joined with the data
    subdirectory of the tool, and fails with a [NotFoundError] when the
    tool, or the project that owns it, is not in the manifest; it then
    reads [<data-dir>/conf.json], fails with an [IOError] when the file
    cannot be read and with a [ParseError] when its content does not
    parse, and returns the parsed configuration otherwise. *)
Theorem LoadConfig_cases (ctx : Context) (w : World)
    (projects : Projects) (tools : Tools) :
  manifest w ctx = Ok (projects, tools) ->
  let name := looked_up (tool_Name w) in
  (tools !! name = None ->
     exists e, fails_with (LoadConfig ctx) w e /\ kind e = NotFoundError) /\
  (forall tool,
     tools !! name = Some tool -> projects !! Tool.Project tool = None ->
     exists e, fails_with (LoadConfig ctx) w e /\ kind e = NotFoundError) /\
  (forall tool project,
     tools !! name = Some tool ->
     projects !! Tool.Project tool = Some project ->
     let dataDir := filepath.Join [Project.Path project; Tool.Data tool] in
     let configPath := filepath.Join [dataDir; "conf.json"] in
     returns (DataDirPath ctx (tool_Name w)) w dataDir /\
     (forall cause,
        fs_ReadFile w configPath = inl cause ->
        exists e, fails_with (LoadConfig ctx) w e /\ kind e = IOError) /\
     (forall configBytes cause,
        fs_ReadFile w configPath = inr configBytes ->
        json_Unmarshal w configBytes = inl cause ->
        exists e, fails_with (LoadConfig ctx) w e /\ kind e = ParseError) /\
     (forall configBytes config,
        fs_ReadFile w configPath = inr configBytes ->
        json_Unmarshal w configBytes = inr config ->
        returns (LoadConfig ctx) w config)).
Proof.
  intros Hm name.
  pose proof (DataDirPath_manifest ctx (tool_Name w) w projects tools Hm) as Hdir.
  fold name in Hdir.
  split; [| split].
  - intros Htool. rewrite Htool in Hdir.
    exists (ErrToolNotFound ""). split; [| reflexivity].
    apply LoadConfig_dataDir_failure, Hdir.
  - intros tool Htool Hproject. rewrite Htool, Hproject in Hdir.
    exists (ErrProjectNotFound (Tool.Project tool)). split; [| reflexivity].
    apply LoadConfig_dataDir_failure, Hdir.
  - intros tool project Htool Hproject dataDir configPath.
    rewrite Htool, Hproject in Hdir. fold dataDir in Hdir.
    pose proof (LoadConfig_dataDir ctx w dataDir Hdir) as Hload.
    cbv zeta in Hload. fold configPath in Hload.
    split; [exact Hdir | split; [| split]].
    + intros cause Hread. rewrite Hread in Hload.
      exists (ErrReadFile configPath cause). split; [exact Hload | reflexivity].
    + intros bytes cause Hread Hjson. rewrite Hread, Hjson in Hload.
      exists (ErrUnmarshal bytes cause). split; [exact Hload | reflexivity].
    + intros bytes config Hread Hjson. rewrite Hread, Hjson in Hload.
      exact Hload.
Qed.

Lemma LoadConfig_cases_witness :
  returns (DataDirPath Sample.ctx "") Sample.host
          "/v23/release/go/src/v.io/x/devtools/data" /\
  returns (LoadConfig Sample.ctx) Sample.host Sample.the_config.
Proof.
  destruct (LoadConfig_cases Sample.ctx Sample.host _ _ eq_refl)
    as (_ & _ & Hfound).
  destruct (Hfound (Tool.mk "v23" "devtools" "data")
                   (Project.mk "/v23/release/go/src/v.io/x/devtools")
                   eq_refl eq_refl) as (Hdir & _ & _ & Hload).
  split.
  - exact Hdir.
  - apply (Hload "{}" Sample.the_config); reflexivity.
Defined.

(** C9.  With an empty tool name [DataDirPath] does what it does for the
    name ["v23"]: it looks that tool up in the manifest and fails when the
    manifest has no such tool. *)
Theorem DataDirPath_default_tool (ctx : Context) (w : World) :
  DataDirPath ctx "" w = DataDirPath ctx "v23" w /\
  (forall projects tools,
     manifest w ctx = Ok (projects, tools) ->
     (tools !! "v23" = None ->
        exists e, fails_with (DataDirPath ctx "") w e /\ kind e = NotFoundError) /\
     (forall tool project,
        tools !! "v23" = Some tool ->
        projects !! Tool.Project tool = Some project ->
        returns (DataDirPath ctx "") w
                (filepath.Join [Project.Path project; Tool.Data tool]))).
Proof.
  split; [reflexivity|].
  intros projects tools Hm.
  pose proof (DataDirPath_manifest ctx "" w projects tools Hm) as Hdir.
  change (looked_up "") with "v23" in Hdir.
  split.
  - intros Htool. rewrite Htool in Hdir.
    exists (ErrToolNotFound ""). split; [exact Hdir | reflexivity].
  - intros tool project Htool Hproject. rewrite Htool, Hproject in Hdir.
    exact Hdir.
Qed.

Lemma DataDirPath_default_tool_witness :
  returns (DataDirPath Sample.ctx "") Sample.host
          "/v23/release/go/src/v.io/x/devtools/data" /\
  (exists e,
     fails_with (DataDirPath Sample.ctx "") Sample.no_tools e /\
     kind e = NotFoundError).
Proof.
  split.
  - destruct (DataDirPath_default_tool Sample.ctx Sample.host) as [_ H].
    destruct (H _ _ eq_refl) as [_ Hfound].
    apply (Hfound (Tool.mk "v23" "devtools" "data")
                  (Project.mk "/v23/release/go/src/v.io/x/devtools"));
      reflexivity.
  - destruct (DataDirPath_default_tool Sample.ctx Sample.no_tools) as [_ H].
    destruct (H ∅ ∅ eq_refl) as [Hmissing _].
    apply Hmissing. reflexivity.
Defined.

(** ** Snapshots *)

Lemma lookup_Set_eq (s : Snapshot) key value :
  Set_ s key value !! key = Some value.
Proof. apply lookup_insert_eq. Qed.

Lemma lookup_Set_ne (s : Snapshot) key value k :
  key <> k -> Set_ s key value !! k = s !! k.
Proof. apply lookup_insert_ne. Qed.

Lemma lookup_SetTokens_eq (s : Snapshot) key tokens sep :
  SetTokens s key tokens sep !! key = Some (strings.Join tokens sep).
Proof. apply lookup_insert_eq. Qed.

Lemma lookup_SetTokens_ne (s : Snapshot) key tokens sep k :
  key <> k -> SetTokens s key tokens sep !! k = s !! k.
Proof. apply lookup_insert_ne. Qed.

(** The tokens of a variable depend on the value of that variable only. *)
Lemma GetTokens_ext (s s' : Snapshot) key sep :
  s' !! key = s !! key -> GetTokens s' key sep = GetTokens s key sep.
Proof. intros H. unfold GetTokens, Get. rewrite H. reflexivity. Qed.

(** [s'] agrees with [s] on every variable outside [keys]. *)
Definition untouched (keys : list string) (s s' : Snapshot) : Prop :=
  forall k, k ∉ keys -> s' !! k = s !! k.

Lemma untouched_refl keys s : untouched keys s s.
Proof. intros k _. reflexivity. Qed.

Lemma untouched_Set keys s s' key value :
  key ∈ keys -> untouched keys s s' -> untouched keys s (Set_ s' key value).
Proof.
  intros Hin H k Hk. rewrite lookup_Set_ne; [apply H, Hk|].
  intros ->. apply Hk, Hin.
Qed.

Lemma untouched_SetTokens keys s s' key tokens sep :
  key ∈ keys -> untouched keys s s' ->
  untouched keys s (SetTokens s' key tokens sep).
Proof. apply untouched_Set. Qed.

Lemma untouched_weaken keys keys' s s' :
  keys ⊆ keys' -> untouched keys s s' -> untouched keys' s s'.
Proof. intros Hsub H k Hk. apply H. intros Hin. apply Hk, Hsub, Hin. Qed.

Lemma untouched_trans keys s1 s2 s3 :
  untouched keys s1 s2 -> untouched keys s2 s3 -> untouched keys s1 s3.
Proof. intros H12 H23 k Hk. rewrite (H23 k Hk). apply H12, Hk. Qed.

Lemma untouched_GetTokens keys s s' key sep :
  untouched keys s s' -> key ∉ keys ->
  GetTokens s' key sep = GetTokens s key sep.
Proof. intros H Hk. apply GetTokens_ext, H, Hk. Qed.

(** Membership of a literal name in a literal list of names. *)
Ltac names :=
  match goal with
  | |- _ ∈ _ => repeat first [apply list_elem_of_here | apply list_elem_of_further]
  | |- _ ∉ _ =>
      let H := fresh in
      intros H;
      repeat (apply elem_of_cons in H as [H|H]; [discriminate H|]);
      apply elem_of_nil in H; exact H
  | |- _ <> _ => discriminate
  end.

(** The paths the workspaces contribute to a search path. *)
Definition workspace_paths (root : string) (workspaces : list string)
  : list string :=
  map (fun workspace => filepath.Join [root; workspace]) workspaces.

Lemma append_workspaces_app root tokens workspaces :
  append_workspaces root tokens workspaces =
  tokens ++ workspace_paths root workspaces.
Proof.
  unfold append_workspaces, workspace_paths.
  revert tokens. induction workspaces as [|workspace rest IH]; intros tokens.
  - simpl. symmetry. apply app_nil_r.
  - simpl. rewrite IH, <- app_assoc. reflexivity.
Qed.

Lemma setGoPath_GOPATH env root config :
  setGoPath env root config !! "GOPATH" =
  Some (strings.Join (GetTokens env "GOPATH" ":" ++
                      workspace_paths root (GoWorkspaces config)) ":").
Proof.
  unfold setGoPath. rewrite lookup_SetTokens_eq, append_workspaces_app.
  reflexivity.
Qed.

Lemma setVdlPath_VDLPATH env root config :
  setVdlPath env root config !! "VDLPATH" =
  Some (strings.Join (GetTokens env "VDLPATH" ":" ++
                      workspace_paths root (VDLWorkspaces config)) ":").
Proof.
  unfold setVdlPath. rewrite lookup_SetTokens_eq, append_workspaces_app.
  reflexivity.
Qed.

(** The snapshot after the two search paths are set. *)
Definition with_workspaces (env : Snapshot) (root : string) (config : Config)
  : Snapshot :=
  setVdlPath (setGoPath env root config) root config.

Lemma untouched_with_workspaces env root config :
  untouched ["GOPATH"; "VDLPATH"] env (with_workspaces env root config).
Proof.
  unfold with_workspaces, setVdlPath, setGoPath.
  apply untouched_SetTokens; [names|].
  apply untouched_SetTokens; [names|].
  apply untouched_refl.
Qed.

Lemma with_workspaces_GOPATH env root config :
  with_workspaces env root config !! "GOPATH" =
  Some (strings.Join (GetTokens env "GOPATH" ":" ++
                      workspace_paths root (GoWorkspaces config)) ":").
Proof.
  unfold with_workspaces, setVdlPath.
  rewrite lookup_SetTokens_ne by names. apply setGoPath_GOPATH.
Qed.

Lemma with_workspaces_VDLPATH env root config :
  with_workspaces env root config !! "VDLPATH" =
  Some (strings.Join (GetTokens env "VDLPATH" ":" ++
                      workspace_paths root (VDLWorkspaces config)) ":").
Proof.
  unfold with_workspaces. rewrite setVdlPath_VDLPATH.
  rewrite (GetTokens_ext env (setGoPath env root config)); [reflexivity|].
  unfold setGoPath. apply lookup_SetTokens_ne. names.
Qed.

(** ** The native-code step *)

Definition leveldb (root : string) : string :=
  filepath.Join [root; "third_party"; "cout"; "leveldb"].

(** The flags the step adds when the leveldb directory is there. *)
Definition leveldb_cflags (root : string) : list string :=
  [filepath.Join ["-I" +:+ leveldb root; "include"]].

Definition leveldb_ldflags (root arch : string) : list string :=
  [filepath.Join ["-L" +:+ leveldb root; "lib"]] ++
  (if decide (arch = "linux")
   then ["-Wl,-rpath"; filepath.Join [leveldb root; "lib"]]
   else []).

(** The snapshot [setSyncbaseCgoEnv] leaves when it returns; [found] tells
    whether the leveldb directory is there. *)
Definition cgo_env (env : Snapshot) (root arch : string) (found : bool)
  : Snapshot :=
  let env1 := Set_ env "CGO_ENABLED" "1" in
  let cflags :=
    GetTokens env "CGO_CFLAGS" " " ++
    (if found then leveldb_cflags root else []) in
  let ldflags :=
    GetTokens env "CGO_LDFLAGS" " " ++
    (if found then leveldb_ldflags root arch else []) in
  SetTokens (SetTokens env1 "CGO_CFLAGS" cflags " ") "CGO_LDFLAGS" ldflags " ".

Lemma setSyncbaseCgoEnv_run env root arch w :
  setSyncbaseCgoEnv env root arch w =
  match fs_Stat w (leveldb root) with
  | None => (Ok (cgo_env env root arch true), w)
  | Some err =>
      if IsNotExist err then (Ok (cgo_env env root arch false), w)
      else (Err (ErrStatDir (leveldb root) err), w)
  end.
Proof.
  unfold setSyncbaseCgoEnv, bind, os_Stat, gets, cgo_env, leveldb_cflags,
    leveldb_ldflags. fold (leveldb root).
  rewrite !(GetTokens_ext env (Set_ env "CGO_ENABLED" "1"))
    by (apply lookup_Set_ne; names).
  destruct (fs_Stat w (leveldb root)) as [err|].
  - destruct (IsNotExist err); simpl; [| reflexivity].
    rewrite (app_nil_r (GetTokens env "CGO_CFLAGS" " ")).
    rewrite (app_nil_r (GetTokens env "CGO_LDFLAGS" " ")). reflexivity.
  - simpl. destruct (decide (arch = "linux")).
    + rewrite <- (app_assoc (GetTokens env "CGO_LDFLAGS" " ")). reflexivity.
    + reflexivity.
Qed.

Definition cgo_vars : list string := ["CGO_ENABLED"; "CGO_CFLAGS"; "CGO_LDFLAGS"].

Lemma untouched_cgo_env env root arch found :
  untouched cgo_vars env (cgo_env env root arch found).
Proof.
  unfold cgo_env.
  apply untouched_SetTokens; [names|].
  apply untouched_SetTokens; [names|].
  apply untouched_Set; [names|].
  apply untouched_refl.
Qed.


(** ** The steps of [VanadiumEnvironment] *)

(** The platform asks for the native-code step. *)
Definition wants_cgo (p : Platform) : bool :=
  bool_decide (OS p = "darwin") || bool_decide (OS p = "linux").

(** The third step, on the snapshot [env]. *)
Definition cgo_step (env : Snapshot) (root : string) (p : Platform)
  : M Snapshot :=
  if wants_cgo p then setSyncbaseCgoEnv env root (OS p) else ret env.

(** The switch on the platform, on the snapshot [env]. *)
Definition dispatch (env : Snapshot) (p : Platform) : M Snapshot :=
  goarch <- gets GOARCH ;;
  goos <- gets GOOS ;;
  if bool_decide (Arch p = goarch) && bool_decide (OS p = goos)
  then ret env
  else if bool_decide (Arch p = "arm") && bool_decide (OS p = "linux")
  then setArmEnv env p
  else if bool_decide (Arch p = "arm") && bool_decide (OS p = "android")
  then setAndroidEnv env p
  else if (bool_decide (Arch p = "386") || bool_decide (Arch p = "amd64p32"))
          && bool_decide (OS p = "nacl")
  then setNaclEnv env p
  else fail (UnsupportedPlatformErr p).

Lemma VanadiumEnvironment_steps ctx p w root config :
  returns V23Root w root -> returns (LoadConfig ctx) w config ->
  VanadiumEnvironment ctx p w =
  (env <- cgo_step (with_workspaces (environ w) root config) root p ;;
   dispatch env p) w.
Proof.
  intros Hroot Hconfig. unfold VanadiumEnvironment.
  rewrite (bind_Ok _ _ w (environ w) w) by reflexivity.
  rewrite (bind_Ok _ _ _ _ _ Hroot), (bind_Ok _ _ _ _ _ Hconfig).
  reflexivity.
Qed.

Lemma VanadiumEnvironment_LoadConfig_failure ctx p w root e :
  returns V23Root w root -> fails_with (LoadConfig ctx) w e ->
  fails_with (VanadiumEnvironment ctx p) w e.
Proof.
  intros Hroot Hconfig. unfold fails_with, VanadiumEnvironment.
  rewrite (bind_Ok _ _ w (environ w) w) by reflexivity.
  rewrite (bind_Ok _ _ _ _ _ Hroot). apply bind_Err, Hconfig.
Qed.

(** A snapshot is returned only after the root was found and the
    configuration loaded, and by the last two steps. *)
Lemma VanadiumEnvironment_Ok_inv ctx p w env w' :
  VanadiumEnvironment ctx p w = (Ok env, w') ->
  w' = w /\
  exists root config env1,
    returns V23Root w root /\ returns (LoadConfig ctx) w config /\
    cgo_step (with_workspaces (environ w) root config) root p w = (Ok env1, w) /\
    dispatch env1 p w = (Ok env, w).
Proof.
  intros H.
  assert (w' = w) as ->.
  { pose proof (readonly_VanadiumEnvironment ctx p w) as Hro.
    rewrite H in Hro. exact Hro. }
  split; [reflexivity|].
  pose proof (readonly_run _ w readonly_V23Root) as Hroot.
  destruct (V23Root w).1 as [root|e] eqn:Er.
  2: { rewrite (VanadiumEnvironment_root_failure ctx p w e Hroot) in H.
       discriminate H. }
  pose proof (readonly_run _ w (readonly_LoadConfig ctx)) as Hconfig.
  destruct (LoadConfig ctx w).1 as [config|e] eqn:Ec.
  2: { rewrite (VanadiumEnvironment_LoadConfig_failure ctx p w root e
                  Hroot Hconfig) in H.
       discriminate H. }
  rewrite (VanadiumEnvironment_steps ctx p w root config Hroot Hconfig) in H.
  apply bind_Ok_inv in H as (env1 & w1 & Hcgo & Hdispatch).
  assert (w1 = w) as ->.
  { assert (readonly (cgo_step (with_workspaces (environ w) root config) root p))
      as Hro by (unfold cgo_step; destruct (wants_cgo p); eauto with readonly).
    specialize (Hro w). rewrite Hcgo in Hro. exact Hro. }
  exists root, config, env1. repeat split; assumption.
Qed.

(** What the third step returns. *)
Lemma cgo_step_Ok_inv env root p w env1 :
  cgo_step env root p w = (Ok env1, w) ->
  (wants_cgo p = false /\ env1 = env) \/
  (wants_cgo p = true /\
   exists found,
     env1 = cgo_env env root (OS p) found /\
     match fs_Stat w (leveldb root) with
     | None => found = true
     | Some err => found = false /\ IsNotExist err = true
     end).
Proof.
  unfold cgo_step. destruct (wants_cgo p).
  - rewrite setSyncbaseCgoEnv_run. intros H. right. split; [reflexivity|].
    destruct (fs_Stat w (leveldb root)) as [err|].
    + destruct (IsNotExist err); [| discriminate H].
      exists false. injection H as <-. repeat split.
    + exists true. injection H as <-. repeat split.
  - intros H. left. injection H as <-. repeat split.
Qed.

Lemma untouched_cgo_step env root p w env1 :
  cgo_step env root p w = (Ok env1, w) ->
  untouched (if wants_cgo p then cgo_vars else []) env env1.
Proof.
  intros H. apply cgo_step_Ok_inv in H as [[-> ->] | [-> (found & -> & _)]].
  - apply untouched_refl.
  - apply untouched_cgo_env.
Qed.

(** ** The switch on the platform *)

(** The snapshots the three cross-compilation helpers leave. *)
Definition arm_env (env : Snapshot) (p : Platform) (root : string) : Snapshot :=
  let env1 := Set_ env "GOARCH" (Arch p) in
  let env2 := Set_ env1 "GOARM" (strings.TrimPrefix (SubArch p) "v") in
  let env3 := Set_ env2 "GOOS" (OS p) in
  SetTokens env3 "PATH"
    ([filepath.Join [root; "third_party"; "cout"; "xgcc"; "cross_arm"];
      filepath.Join [root; "third_party"; "repos"; "go_arm"; "bin"]]
     ++ GetTokens env3 "PATH" ":") ":".

Definition android_env (env : Snapshot) (p : Platform) (root : string)
  : Snapshot :=
  let env1 := Set_ env "CGO_ENABLED" "1" in
  let env2 := Set_ env1 "GOOS" (OS p) in
  let env3 := Set_ env2 "GOARCH" (Arch p) in
  let env4 := Set_ env3 "GOARM" (strings.TrimPrefix (SubArch p) "v") in
  SetTokens env4 "PATH"
    ([filepath.Join [root; "environment"; "android"; "go"; "bin"]]
     ++ GetTokens env4 "PATH" ":") ":".

Definition nacl_env (env : Snapshot) (p : Platform) : Snapshot :=
  Set_ (Set_ env "GOARCH" (Arch p)) "GOOS" (OS p).

Lemma setArmEnv_run env p w root :
  returns V23Root w root -> returns (setArmEnv env p) w (arm_env env p root).
Proof.
  intros H. unfold returns, setArmEnv. rewrite (bind_Ok _ _ _ _ _ H).
  reflexivity.
Qed.

Lemma setAndroidEnv_run env p w root :
  returns V23Root w root ->
  returns (setAndroidEnv env p) w (android_env env p root).
Proof.
  intros H. unfold returns, setAndroidEnv. rewrite (bind_Ok _ _ _ _ _ H).
  reflexivity.
Qed.

Lemma setNaclEnv_run env p w : returns (setNaclEnv env p) w (nacl_env env p).
Proof. reflexivity. Qed.

Definition arm_vars : list string := ["GOARCH"; "GOARM"; "GOOS"; "PATH"].

Lemma untouched_arm_env env p root : untouched arm_vars env (arm_env env p root).
Proof.
  unfold arm_env. apply untouched_SetTokens; [names|].
  do 3 (apply untouched_Set; [names|]). apply untouched_refl.
Qed.

Lemma arm_env_values env p root :
  let env' := arm_env env p root in
  env' !! "GOARCH" = Some (Arch p) /\
  env' !! "GOOS" = Some (OS p) /\
  env' !! "GOARM" = Some (strings.TrimPrefix (SubArch p) "v") /\
  env' !! "PATH" =
    Some (strings.Join
            ([filepath.Join [root; "third_party"; "cout"; "xgcc"; "cross_arm"];
              filepath.Join [root; "third_party"; "repos"; "go_arm"; "bin"]]
             ++ GetTokens env "PATH" ":") ":").
Proof.
  unfold arm_env. repeat split.
  - rewrite lookup_SetTokens_ne by names.
    rewrite !lookup_Set_ne by names. apply lookup_Set_eq.
  - rewrite lookup_SetTokens_ne by names. apply lookup_Set_eq.
  - rewrite lookup_SetTokens_ne by names.
    rewrite lookup_Set_ne by names. apply lookup_Set_eq.
  - rewrite lookup_SetTokens_eq. do 2 f_equal.
    f_equal. apply GetTokens_ext.
    rewrite !lookup_Set_ne by names. reflexivity.
Qed.

Lemma android_env_values env p root :
  let env' := android_env env p root in
  env' !! "CGO_ENABLED" = Some "1" /\
  env' !! "GOOS" = Some (OS p) /\
  env' !! "GOARCH" = Some (Arch p) /\
  env' !! "GOARM" = Some (strings.TrimPrefix (SubArch p) "v") /\
  env' !! "PATH" =
    Some (strings.Join
            ([filepath.Join [root; "environment"; "android"; "go"; "bin"]]
             ++ GetTokens env "PATH" ":") ":").
Proof.
  unfold android_env. repeat split.
  - rewrite lookup_SetTokens_ne by names.
    rewrite !lookup_Set_ne by names. apply lookup_Set_eq.
  - rewrite lookup_SetTokens_ne by names.
    rewrite !lookup_Set_ne by names. apply lookup_Set_eq.
  - rewrite lookup_SetTokens_ne by names.
    rewrite lookup_Set_ne by names. apply lookup_Set_eq.
  - rewrite lookup_SetTokens_ne by names. apply lookup_Set_eq.
  - rewrite lookup_SetTokens_eq. do 2 f_equal.
    f_equal. apply GetTokens_ext.
    rewrite !lookup_Set_ne by names. reflexivity.
Qed.

(** The platform is the one of the running machine. *)
Definition is_host (w : World) (p : Platform) : Prop :=
  Arch p = GOARCH w /\ OS p = GOOS w.

Lemma host_test w p :
  bool_decide (Arch p = GOARCH w) && bool_decide (OS p = GOOS w) = true
  <-> is_host w p.
Proof.
  unfold is_host. rewrite andb_true_iff, !bool_decide_eq_true. reflexivity.
Qed.

Lemma dispatch_host env p w : is_host w p -> returns (dispatch env p) w env.
Proof.
  intros H. apply host_test in H.
  unfold returns, dispatch, bind, gets. rewrite H. reflexivity.
Qed.

Lemma dispatch_cross env p w :
  ~ is_host w p ->
  dispatch env p w =
  (if bool_decide (Arch p = "arm") && bool_decide (OS p = "linux")
   then setArmEnv env p
   else if bool_decide (Arch p = "arm") && bool_decide (OS p = "android")
   then setAndroidEnv env p
   else if (bool_decide (Arch p = "386") || bool_decide (Arch p = "amd64p32"))
           && bool_decide (OS p = "nacl")
   then setNaclEnv env p
   else fail (UnsupportedPlatformErr p)) w.
Proof.
  intros H. unfold dispatch, bind, gets.
  destruct (bool_decide (Arch p = GOARCH w) && bool_decide (OS p = GOOS w))
    eqn:E; [| reflexivity].
  apply host_test in E. contradiction.
Qed.

(** The pairs of architecture and OS the switch cross-compiles for. *)
Definition cross_targets : list (string * string) :=
  [("arm", "linux"); ("arm", "android"); ("386", "nacl"); ("amd64p32", "nacl")].

(** The platform is neither the host nor a cross-compilation target. *)
Definition unsupported (w : World) (p : Platform) : Prop :=
  (Arch p, OS p) <> (GOARCH w, GOOS w) /\ (Arch p, OS p) ∉ cross_targets.

Lemma dispatch_unsupported env p w :
  unsupported w p -> fails_with (dispatch env p) w (UnsupportedPlatformErr p).
Proof.
  intros [Hhost Hcross]. unfold fails_with.
  rewrite dispatch_cross.
  2: { intros [Ha Ho]. apply Hhost. rewrite Ha, Ho. reflexivity. }
  unfold cross_targets in Hcross. clear Hhost.
  destruct p as [arch os sub]. simpl in *.
  repeat case_bool_decide; subst; try discriminate; simpl; try reflexivity;
    exfalso; apply Hcross; names.
Qed.

(** ** Environment construction *)

(** The stat of the leveldb directory does not stop the third step: the
    step is not asked for, or the directory is there, or it is reported as
    not existing. *)
Definition cgo_passes (w : World) (root : string) (p : Platform) : Prop :=
  wants_cgo p = true ->
  forall err, fs_Stat w (leveldb root) = Some err -> IsNotExist err = true.

Lemma cgo_step_returns env root p w :
  cgo_passes w root p -> exists env1, returns (cgo_step env root p) w env1.
Proof.
  intros Hpass. unfold returns, cgo_step, cgo_passes in *.
  destruct (wants_cgo p).
  - rewrite setSyncbaseCgoEnv_run.
    destruct (fs_Stat w (leveldb root)) as [err|]; [| eauto].
    rewrite (Hpass eq_refl err eq_refl). eauto.
  - eexists. reflexivity.
Qed.

(** C1, as the code has it.  For a platform that is neither the host nor
    one of arm/linux, arm/android, 386/nacl and amd64p32/nacl,
    [VanadiumEnvironment] always fails: no snapshot is returned and the
    process environment is as before.  The platform is looked at last, so
    the error is the [UnsupportedPlatformErr] that names the platform when
    the steps before it succeed: the root lookup, the configuration load
    and, for the OS darwin or linux, the stat of the leveldb directory. *)
Theorem VanadiumEnvironment_unsupported (ctx : Context) (p : Platform)
    (w : World) :
  unsupported w p ->
  (exists e, fails_with (VanadiumEnvironment ctx p) w e) /\
  (forall root config,
     returns V23Root w root -> returns (LoadConfig ctx) w config ->
     cgo_passes w root p ->
     let e := UnsupportedPlatformErr p in
     fails_with (VanadiumEnvironment ctx p) w e /\
     kind e = UnsupportedPlatformError /\ rejected e = Some p).
Proof.
  intros Hun. split.
  - pose proof (readonly_run _ w (readonly_VanadiumEnvironment ctx p)) as Hrun.
    destruct (VanadiumEnvironment ctx p w).1 as [env|e].
    + apply VanadiumEnvironment_Ok_inv in Hrun
        as (_ & root & config & env1 & _ & _ & _ & Hdispatch).
      rewrite (dispatch_unsupported env1 p w Hun) in Hdispatch.
      discriminate Hdispatch.
    + exists e. exact Hrun.
  - intros root config Hroot Hconfig Hpass e.
    split; [| split; reflexivity].
    unfold fails_with.
    rewrite (VanadiumEnvironment_steps ctx p w root config Hroot Hconfig).
    destruct (cgo_step_returns (with_workspaces (environ w) root config)
                root p w Hpass) as [env1 Hcgo].
    rewrite (bind_Ok _ _ _ _ _ Hcgo).
    apply dispatch_unsupported, Hun.
Qed.

Lemma VanadiumEnvironment_unsupported_witness :
  unsupported Sample.host Sample.mips_linux /\
  fails_with (VanadiumEnvironment Sample.ctx Sample.mips_linux) Sample.host
             (UnsupportedPlatformErr Sample.mips_linux).
Proof.
  set (p := Sample.mips_linux).
  assert (Hun : unsupported Sample.host p).
  { split; [discriminate | unfold cross_targets; names]. }
  split; [exact Hun|].
  destruct (VanadiumEnvironment_unsupported Sample.ctx p Sample.host Hun)
    as [_ H].
  apply (H "/v23" Sample.the_config); [reflexivity | reflexivity |].
  intros _ err Hstat. vm_compute in Hstat. discriminate Hstat.
Defined.

(** C1, as stated, fails.  On a host where [V23_ROOT] is not set, the
    platform mips/linux, which is not supported, is answered with the
    error of the root lookup; and where the root and the configuration are
    fine but the stat of the leveldb directory is refused, it is answered
    with the error of that stat.  Neither is [UnsupportedPlatformErr]. *)
Lemma VanadiumEnvironment_unsupported_counterexample :
  (unsupported Sample.no_root Sample.mips_linux /\
   fails_with (VanadiumEnvironment Sample.ctx Sample.mips_linux)
              Sample.no_root (ErrNotSet "V23_ROOT") /\
   ~ fails_with (VanadiumEnvironment Sample.ctx Sample.mips_linux)
                Sample.no_root (UnsupportedPlatformErr Sample.mips_linux)) /\
  (unsupported Sample.unreadable Sample.mips_linux /\
   fails_with (VanadiumEnvironment Sample.ctx Sample.mips_linux)
              Sample.unreadable
              (ErrStatDir "/v23/third_party/cout/leveldb" Sample.denied) /\
   ~ fails_with (VanadiumEnvironment Sample.ctx Sample.mips_linux)
                Sample.unreadable (UnsupportedPlatformErr Sample.mips_linux)).
Proof.
  set (p := Sample.mips_linux). split.
  - assert (H : fails_with (VanadiumEnvironment Sample.ctx p) Sample.no_root
                           (ErrNotSet "V23_ROOT")) by reflexivity.
    split; [split; [discriminate | unfold cross_targets; names]|].
    split; [exact H|].
    unfold fails_with in *. rewrite H. intros Heq. discriminate Heq.
  - assert (H : fails_with (VanadiumEnvironment Sample.ctx p) Sample.unreadable
                  (ErrStatDir "/v23/third_party/cout/leveldb" Sample.denied))
      by reflexivity.
    split; [split; [discriminate | unfold cross_targets; names]|].
    split; [exact H|].
    unfold fails_with in *. rewrite H. intros Heq. discriminate Heq.
Qed.

(** What the switch returns, when it returns. *)
Lemma dispatch_Ok_inv env1 p w env root :
  returns V23Root w root -> dispatch env1 p w = (Ok env, w) ->
  (is_host w p /\ env = env1) \/
  (~ is_host w p /\
   ((Arch p = "arm" /\ OS p = "linux" /\ env = arm_env env1 p root) \/
    (Arch p = "arm" /\ OS p = "android" /\ env = android_env env1 p root) \/
    ((Arch p = "386" \/ Arch p = "amd64p32") /\ OS p = "nacl" /\
     env = nacl_env env1 p))).
Proof.
  intros Hroot H.
  destruct (bool_decide (Arch p = GOARCH w) && bool_decide (OS p = GOOS w))
    eqn:Ehost.
  - apply host_test in Ehost. left. split; [exact Ehost|].
    rewrite (dispatch_host env1 p w Ehost) in H. injection H as <-. reflexivity.
  - assert (Hnot : ~ is_host w p).
    { intros Hh. apply host_test in Hh. rewrite Hh in Ehost. discriminate. }
    right. split; [exact Hnot|].
    rewrite (dispatch_cross env1 p w Hnot) in H.
    destruct (bool_decide (Arch p = "arm") && bool_decide (OS p = "linux"))
      eqn:E1.
    { apply andb_true_iff in E1 as [Ha Ho].
      apply bool_decide_eq_true in Ha, Ho.
      rewrite (setArmEnv_run env1 p w root Hroot) in H. injection H as <-.
      left. repeat split; assumption. }
    destruct (bool_decide (Arch p = "arm") && bool_decide (OS p = "android"))
      eqn:E2.
    { apply andb_true_iff in E2 as [Ha Ho].
      apply bool_decide_eq_true in Ha, Ho.
      rewrite (setAndroidEnv_run env1 p w root Hroot) in H. injection H as <-.
      right. left. repeat split; assumption. }
    destruct ((bool_decide (Arch p = "386")
               || bool_decide (Arch p = "amd64p32"))
              && bool_decide (OS p = "nacl")) eqn:E3; [| discriminate H].
    apply andb_true_iff in E3 as [Ha Ho].
    apply orb_true_iff in Ha. rewrite !bool_decide_eq_true in Ha.
    apply bool_decide_eq_true in Ho.
    injection H as <-. right. right. repeat split; assumption.
Qed.

Definition cross_vars : list string :=
  ["CGO_ENABLED"; "GOOS"; "GOARCH"; "GOARM"; "PATH"].

Lemma untouched_android_env env p root :
  untouched cross_vars env (android_env env p root).
Proof.
  unfold android_env. apply untouched_SetTokens; [names|].
  do 4 (apply untouched_Set; [names|]). apply untouched_refl.
Qed.

Lemma untouched_nacl_env env p : untouched ["GOARCH"; "GOOS"] env (nacl_env env p).
Proof.
  unfold nacl_env. do 2 (apply untouched_Set; [names|]). apply untouched_refl.
Qed.

Lemma sublist_names (keys keys' : list string) :
  Forall (fun k => k ∈ keys') keys -> keys ⊆ keys'.
Proof. intros H k Hk. rewrite Forall_forall in H. apply H, Hk. Qed.

Ltac subnames :=
  apply sublist_names; repeat (apply Forall_cons; split; [names|]);
  apply Forall_nil; exact I.

Lemma untouched_dispatch env1 p w env root :
  returns V23Root w root -> dispatch env1 p w = (Ok env, w) ->
  untouched cross_vars env1 env.
Proof.
  intros Hroot H.
  apply (dispatch_Ok_inv env1 p w env root Hroot) in H
    as [[_ ->] | [_ [(_ & _ & ->) | [(_ & _ & ->) | (_ & _ & ->)]]]].
  - apply untouched_refl.
  - eapply untouched_weaken; [| apply untouched_arm_env].
    unfold arm_vars, cross_vars. subnames.
  - apply untouched_android_env.
  - eapply untouched_weaken; [| apply untouched_nacl_env].
    unfold cross_vars. subnames.
Qed.

(** C5.  The snapshot that environment construction returns has, in GOPATH
    and in VDLPATH, the tokens the variable had in the process
    environment, in their order, followed by the root joined with each
    configured Go workspace, respectively VDL workspace. *)
Theorem VanadiumEnvironment_workspaces (ctx : Context) (p : Platform)
    (w w' : World) (env : Snapshot) :
  VanadiumEnvironment ctx p w = (Ok env, w') ->
  exists root config,
    returns V23Root w root /\ returns (LoadConfig ctx) w config /\
    env !! "GOPATH" =
      Some (strings.Join
              (GetTokens (environ w) "GOPATH" ":" ++
               map (fun workspace => filepath.Join [root; workspace])
                   (GoWorkspaces config)) ":") /\
    env !! "VDLPATH" =
      Some (strings.Join
              (GetTokens (environ w) "VDLPATH" ":" ++
               map (fun workspace => filepath.Join [root; workspace])
                   (VDLWorkspaces config)) ":").
Proof.
  intros H.
  apply VanadiumEnvironment_Ok_inv in H
    as (_ & root & config & env1 & Hroot & Hconfig & Hcgo & Hdispatch).
  exists root, config. split; [exact Hroot | split; [exact Hconfig|]].
  pose proof (untouched_cgo_step _ _ _ _ _ Hcgo) as U1.
  pose proof (untouched_dispatch _ _ _ _ _ Hroot Hdispatch) as U2.
  assert (forall k, k ∉ cgo_vars -> k ∉ cross_vars ->
                    env !! k = with_workspaces (environ w) root config !! k)
    as Hkeep.
  { intros k Hk1 Hk2. rewrite (U2 k Hk2). apply U1.
    destruct (wants_cgo p); [exact Hk1 | apply not_elem_of_nil]. }
  split.
  - rewrite Hkeep by (unfold cgo_vars, cross_vars; names).
    apply with_workspaces_GOPATH.
  - rewrite Hkeep by (unfold cgo_vars, cross_vars; names).
    apply with_workspaces_VDLPATH.
Qed.

Lemma VanadiumEnvironment_workspaces_witness :
  exists env,
    returns (VanadiumEnvironment Sample.ctx (mkPlatform "amd64" "linux" ""))
            Sample.host env /\
    env !! "GOPATH" = Some "/home/me/go:/v23/release/go" /\
    env !! "VDLPATH" = Some "/v23/release/go/src/v.io".
Proof.
  set (p := mkPlatform "amd64" "linux" "").
  set (env := Sample.snapshot_of (VanadiumEnvironment Sample.ctx p Sample.host)).
  assert (Hrun : returns (VanadiumEnvironment Sample.ctx p) Sample.host env)
    by (vm_compute; reflexivity).
  exists env. split; [exact Hrun|].
  destruct (VanadiumEnvironment_workspaces Sample.ctx p _ _ _ Hrun)
    as (root & config & Hroot & Hconfig & Hgo & Hvdl).
  assert (root = "/v23") as ->
    by (apply (returns_unique _ _ _ _ Hroot); reflexivity).
  assert (config = Sample.the_config) as ->
    by (apply (returns_unique _ _ _ _ Hconfig); reflexivity).
  split; [exact Hgo | exact Hvdl].
Defined.

(** The switch accepts the host and the four cross-compilation targets. *)
Lemma dispatch_returns env1 p w root :
  returns V23Root w root ->
  is_host w p \/ (Arch p, OS p) ∈ cross_targets ->
  exists env, returns (dispatch env1 p) w env.
Proof.
  intros Hroot Hsup.
  destruct (bool_decide (Arch p = GOARCH w) && bool_decide (OS p = GOOS w))
    eqn:Ehost.
  { apply host_test in Ehost. exists env1. apply dispatch_host, Ehost. }
  assert (Hnot : ~ is_host w p).
  { intros Hh. apply host_test in Hh. rewrite Hh in Ehost. discriminate. }
  destruct Hsup as [Hh | Hin]; [contradiction|].
  unfold returns. rewrite (dispatch_cross env1 p w Hnot).
  destruct p as [arch os sub]. simpl in *. clear Ehost Hnot.
  unfold cross_targets in Hin.
  repeat (apply elem_of_cons in Hin as [Hin|Hin];
          [injection Hin as -> ->; simpl;
           first [ exists (arm_env env1 (mkPlatform "arm" "linux" sub) root);
                   apply setArmEnv_run, Hroot
                 | exists (android_env env1 (mkPlatform "arm" "android" sub) root);
                   apply setAndroidEnv_run, Hroot
                 | eexists; reflexivity ] |]).
  apply elem_of_nil in Hin. destruct Hin.
Qed.

Lemma VanadiumEnvironment_returns ctx p w root config :
  returns V23Root w root -> returns (LoadConfig ctx) w config ->
  cgo_passes w root p ->
  is_host w p \/ (Arch p, OS p) ∈ cross_targets ->
  exists env, returns (VanadiumEnvironment ctx p) w env.
Proof.
  intros Hroot Hconfig Hpass Hsup. unfold returns.
  rewrite (VanadiumEnvironment_steps ctx p w root config Hroot Hconfig).
  destruct (cgo_step_returns (with_workspaces (environ w) root config)
              root p w Hpass) as [env1 Hcgo].
  rewrite (bind_Ok _ _ _ _ _ Hcgo).
  apply (dispatch_returns env1 p w root Hroot Hsup).
Qed.

(** The variables a run for the host platform may change. *)
Definition host_vars (p : Platform) : list string :=
  ["GOPATH"; "VDLPATH"] ++ (if wants_cgo p then cgo_vars else []).

(** C10.  When the architecture and the OS of the platform are those of
    the running machine, [VanadiumEnvironment] stops at the host case: it
    returns a snapshot whenever the steps before the switch succeed, and
    the snapshot differs from the process environment in GOPATH and
    VDLPATH at most and, for the OS darwin or linux, in the three CGO
    variables; GOOS, GOARCH, GOARM and PATH are as in the process
    environment.  The host case comes first: this holds as well when the
    platform is one of the cross-compilation targets. *)
Theorem VanadiumEnvironment_host (ctx : Context) (p : Platform) (w : World) :
  is_host w p ->
  (forall root config,
     returns V23Root w root -> returns (LoadConfig ctx) w config ->
     cgo_passes w root p ->
     exists env, returns (VanadiumEnvironment ctx p) w env) /\
  (forall env w',
     VanadiumEnvironment ctx p w = (Ok env, w') ->
     w' = w /\
     untouched (host_vars p) (environ w) env /\
     env !! "GOOS" = environ w !! "GOOS" /\
     env !! "GOARCH" = environ w !! "GOARCH" /\
     env !! "GOARM" = environ w !! "GOARM" /\
     env !! "PATH" = environ w !! "PATH").
Proof.
  intros Hhost. split.
  - intros root config Hroot Hconfig Hpass.
    apply (VanadiumEnvironment_returns ctx p w root config); auto.
  - intros env w' H.
    apply VanadiumEnvironment_Ok_inv in H
      as (-> & root & config & env1 & Hroot & _ & Hcgo & Hdispatch).
    split; [reflexivity|].
    pose proof (dispatch_host env1 p w Hhost) as Hsame.
    unfold returns in Hsame. rewrite Hsame in Hdispatch.
    injection Hdispatch as <-.
    assert (U : untouched (host_vars p) (environ w) env1).
    { apply (untouched_trans _ _ (with_workspaces (environ w) root config)).
      - eapply untouched_weaken; [| apply untouched_with_workspaces].
        intros k Hk. apply elem_of_app. left. exact Hk.
      - eapply untouched_weaken; [| apply (untouched_cgo_step _ _ _ _ _ Hcgo)].
        intros k Hk. apply elem_of_app. right. exact Hk. }
    split; [exact U|].
    unfold host_vars, cgo_vars in U.
    repeat split; apply U; destruct (wants_cgo p); simpl; names.
Qed.

Lemma VanadiumEnvironment_host_witness :
  exists env,
    returns (VanadiumEnvironment Sample.ctx Sample.arm_linux_v6)
            Sample.arm_host env /\
    env !! "PATH" = Some "/usr/bin:/bin" /\
    env !! "GOARCH" = None /\ env !! "GOOS" = None /\ env !! "GOARM" = None.
Proof.
  set (p := Sample.arm_linux_v6).
  assert (Hhost : is_host Sample.arm_host p) by (split; reflexivity).
  destruct (VanadiumEnvironment_host Sample.ctx p Sample.arm_host Hhost)
    as [Hret Hframe].
  destruct (Hret "/v23" Sample.the_config) as [env Hrun];
    [reflexivity | reflexivity | |].
  { intros _ err Hstat. vm_compute in Hstat. discriminate Hstat. }
  exists env. split; [exact Hrun|].
  destruct (Hframe env _ Hrun) as (_ & _ & Hos & Harch & Harm & Hpath).
  repeat split; assumption.
Defined.

(** [strings.TrimPrefix] with the prefix ["v"]: one leading [v] goes, and a
    string without it stays. *)
Lemma substring_all s : String.substring 0 (String.length s) s = s.
Proof. induction s as [|c s IH]; simpl; [reflexivity | rewrite IH; reflexivity]. Qed.

Lemma TrimPrefix_v :
  (forall s, strings.TrimPrefix ("v" +:+ s) "v" = s) /\
  (forall s, strings.HasPrefix s "v" = false -> strings.TrimPrefix s "v" = s).
Proof.
  split.
  - intros s. unfold strings.TrimPrefix, strings.HasPrefix. simpl.
    destruct s as [|c s]; simpl; [reflexivity|].
    rewrite substring_all. reflexivity.
  - intros s H. unfold strings.TrimPrefix. rewrite H. reflexivity.
Qed.

(** C2.  A snapshot constructed for arm/linux, on a host that is not
    arm/linux, has GOARCH [arm], GOOS [linux], GOARM the sub-architecture
    without its leading [v], and as PATH the tokens of the PATH of the
    process environment with two entries in front of them:
    [<root>/third_party/cout/xgcc/cross_arm], then
    [<root>/third_party/repos/go_arm/bin]. *)
Theorem VanadiumEnvironment_arm_linux (ctx : Context) (p : Platform)
    (w w' : World) (env : Snapshot) :
  Arch p = "arm" -> OS p = "linux" ->
  ~ (GOARCH w = "arm" /\ GOOS w = "linux") ->
  VanadiumEnvironment ctx p w = (Ok env, w') ->
  exists root,
    returns V23Root w root /\
    env !! "GOARCH" = Some "arm" /\
    env !! "GOOS" = Some "linux" /\
    env !! "GOARM" = Some (strings.TrimPrefix (SubArch p) "v") /\
    env !! "PATH" =
      Some (strings.Join
              ([filepath.Join [root; "third_party"; "cout"; "xgcc"; "cross_arm"];
                filepath.Join [root; "third_party"; "repos"; "go_arm"; "bin"]]
               ++ GetTokens (environ w) "PATH" ":") ":").
Proof.
  intros Harch Hos Hnothost H.
  apply VanadiumEnvironment_Ok_inv in H
    as (_ & root & config & env1 & Hroot & _ & Hcgo & Hdispatch).
  exists root. split; [exact Hroot|].
  apply (dispatch_Ok_inv env1 p w env root Hroot) in Hdispatch
    as [[[Ha Ho] _] | [_ [(_ & _ & ->) | [(_ & Ho & _) | (_ & Ho & _)]]]].
  - destruct Hnothost. rewrite <- Ha, <- Ho. split; assumption.
  - destruct (arm_env_values env1 p root) as (Hv1 & Hv2 & Hv3 & Hv4).
    rewrite Harch in Hv1. rewrite Hos in Hv2.
    repeat split; try assumption.
    rewrite Hv4. do 3 f_equal.
    rewrite (untouched_GetTokens _ _ _ "PATH" ":"
               (untouched_cgo_step _ _ _ _ _ Hcgo))
      by (destruct (wants_cgo p); unfold cgo_vars; names).
    apply (untouched_GetTokens _ _ _ "PATH" ":"
             (untouched_with_workspaces (environ w) root config)).
    names.
  - rewrite Hos in Ho. discriminate Ho.
  - rewrite Hos in Ho. discriminate Ho.
Qed.

Lemma VanadiumEnvironment_arm_linux_witness :
  exists env,
    returns (VanadiumEnvironment Sample.ctx Sample.arm_linux_v6)
            Sample.host env /\
    env !! "GOARCH" = Some "arm" /\
    env !! "GOOS" = Some "linux" /\
    env !! "GOARM" = Some "6" /\
    env !! "PATH" =
      Some ("/v23/third_party/cout/xgcc/cross_arm:"
            +:+ "/v23/third_party/repos/go_arm/bin:/usr/bin:/bin").
Proof.
  set (p := Sample.arm_linux_v6).
  set (env := Sample.snapshot_of (VanadiumEnvironment Sample.ctx p Sample.host)).
  assert (Hrun : returns (VanadiumEnvironment Sample.ctx p) Sample.host env)
    by (vm_compute; reflexivity).
  exists env. split; [exact Hrun|].
  assert (Hnot : ~ (GOARCH Sample.host = "arm" /\ GOOS Sample.host = "linux"))
    by (intros [Ha _]; discriminate Ha).
  destruct (VanadiumEnvironment_arm_linux Sample.ctx p _ _ _
              eq_refl eq_refl Hnot Hrun)
    as (root & Hroot & Harch & Hos & Harm & Hpath).
  assert (root = "/v23") as ->
    by (apply (returns_unique _ _ _ _ Hroot); reflexivity).
  split; [exact Harch | split; [exact Hos | split; [exact Harm | exact Hpath]]].
Defined.

(** C3.  For the platform android/arm/v7, on a host that is not
    arm/android, environment construction succeeds once the root is found
    and the configuration loaded, and its snapshot has GOARM [7],
    CGO_ENABLED [1], GOOS [android], GOARCH [arm], and as PATH the tokens
    of the PATH of the process environment with the one entry
    [<root>/environment/android/go/bin] in front of them. *)
Theorem VanadiumEnvironment_android_v7 (ctx : Context) (w : World)
    (root : string) (config : Config) :
  let p := {| OS := "android"; Arch := "arm"; SubArch := "v7" |} in
  ~ (GOARCH w = "arm" /\ GOOS w = "android") ->
  returns V23Root w root -> returns (LoadConfig ctx) w config ->
  exists env,
    returns (VanadiumEnvironment ctx p) w env /\
    env !! "GOARM" = Some "7" /\
    env !! "CGO_ENABLED" = Some "1" /\
    env !! "GOOS" = Some "android" /\
    env !! "GOARCH" = Some "arm" /\
    env !! "PATH" =
      Some (strings.Join
              ([filepath.Join [root; "environment"; "android"; "go"; "bin"]]
               ++ GetTokens (environ w) "PATH" ":") ":").
Proof.
  intros p Hnothost Hroot Hconfig.
  set (env0 := with_workspaces (environ w) root config).
  assert (Hnot : ~ is_host w p).
  { intros [Ha Ho]. apply Hnothost. simpl in Ha, Ho. split; congruence. }
  exists (android_env env0 p root). split.
  - unfold returns.
    rewrite (VanadiumEnvironment_steps ctx p w root config Hroot Hconfig).
    rewrite (bind_Ok _ _ w env0 w) by reflexivity.
    rewrite (dispatch_cross env0 p w Hnot).
    apply (setAndroidEnv_run env0 p w root Hroot).
  - destruct (android_env_values env0 p root) as (Hv1 & Hv2 & Hv3 & Hv4 & Hv5).
    repeat split; try assumption.
    rewrite Hv5. do 3 f_equal.
    apply (untouched_GetTokens _ _ _ "PATH" ":"
             (untouched_with_workspaces (environ w) root config)).
    names.
Qed.

Lemma VanadiumEnvironment_android_v7_witness :
  exists env,
    returns (VanadiumEnvironment Sample.ctx (mkPlatform "arm" "android" "v7"))
            Sample.host env /\
    env !! "GOARM" = Some "7" /\
    env !! "CGO_ENABLED" = Some "1" /\
    env !! "GOOS" = Some "android" /\
    env !! "GOARCH" = Some "arm" /\
    env !! "PATH" = Some "/v23/environment/android/go/bin:/usr/bin:/bin".
Proof.
  assert (Hnot : ~ (GOARCH Sample.host = "arm" /\ GOOS Sample.host = "android"))
    by (intros [Ha _]; discriminate Ha).
  exact (VanadiumEnvironment_android_v7 Sample.ctx Sample.host "/v23"
           Sample.the_config Hnot eq_refl eq_refl).
Defined.



(** * Further properties of [env.go] *)

(** ** When environment construction succeeds, and how it fails *)

Lemma cgo_step_passes env root p w env1 :
  cgo_step env root p w = (Ok env1, w) -> cgo_passes w root p.
Proof.
  intros H Hwants err Hstat.
  apply cgo_step_Ok_inv in H as [[Hno _] | (_ & found & _ & Hfound)].
  - rewrite Hwants in Hno. discriminate Hno.
  - rewrite Hstat in Hfound. exact (proj2 Hfound).
Qed.

Lemma dispatch_Ok_supported env1 p w env root :
  returns V23Root w root -> dispatch env1 p w = (Ok env, w) ->
  is_host w p \/ (Arch p, OS p) ∈ cross_targets.
Proof.
  intros Hroot H.
  apply (dispatch_Ok_inv env1 p w env root Hroot) in H
    as [[Hh _] | [_ [(Ha & Ho & _) | [(Ha & Ho & _) | ([Ha|Ha] & Ho & _)]]]];
    [left; exact Hh | right; rewrite Ha, Ho; unfold cross_targets; names ..].
Qed.

(** X1.  [VanadiumEnvironment] returns a snapshot exactly when the root is
    found, the configuration loads, the stat of the leveldb directory does
    not stop the native-code step, and the platform is the host or one of
    the four cross-compilation targets. *)
Theorem VanadiumEnvironment_returns_iff (ctx : Context) (p : Platform)
    (w : World) :
  (exists env, returns (VanadiumEnvironment ctx p) w env) <->
  (exists root config,
     returns V23Root w root /\ returns (LoadConfig ctx) w config /\
     cgo_passes w root p /\
     (is_host w p \/ (Arch p, OS p) ∈ cross_targets)).
Proof.
  split.
  - intros [env H].
    apply VanadiumEnvironment_Ok_inv in H
      as (_ & root & config & env1 & Hroot & Hconfig & Hcgo & Hdispatch).
    exists root, config.
    split; [exact Hroot | split; [exact Hconfig | split]].
    + exact (cgo_step_passes _ _ _ _ _ Hcgo).
    + apply (dispatch_Ok_supported env1 p w env root Hroot Hdispatch).
  - intros (root & config & Hroot & Hconfig & Hpass & Hsup).
    apply (VanadiumEnvironment_returns ctx p w root config); assumption.
Qed.

Lemma VanadiumEnvironment_returns_iff_witness :
  (exists env,
     returns (VanadiumEnvironment Sample.ctx Sample.arm_linux_v6)
             Sample.host env) /\
  ~ (exists env,
       returns (VanadiumEnvironment Sample.ctx Sample.arm_linux_v6)
               Sample.unreadable env).
Proof.
  split.
  - apply (proj2 (VanadiumEnvironment_returns_iff _ _ _)).
    exists "/v23", Sample.the_config.
    split; [reflexivity | split; [reflexivity | split]].
    + intros _ err Hstat. vm_compute in Hstat. discriminate Hstat.
    + right. unfold cross_targets. names.
  - intros H.
    apply (proj1 (VanadiumEnvironment_returns_iff _ _ _)) in H
      as (root & config & Hroot & _ & Hpass & _).
    assert (root = "/v23") as ->
      by (apply (returns_unique _ _ _ _ Hroot); reflexivity).
    specialize (Hpass eq_refl Sample.denied eq_refl). discriminate Hpass.
Defined.

(** X2.  The errors of the steps before the switch are returned as they
    are, for every platform: the error of the root lookup; with the root
    found, the error of the configuration load; with both done and the OS
    of the platform darwin or linux, a stat of the leveldb directory that
    fails otherwise than by the directory not existing, as an [IOError]
    that carries the directory. *)
Theorem VanadiumEnvironment_first_failure (ctx : Context) (p : Platform)
    (w : World) :
  (forall e,
     fails_with V23Root w e -> fails_with (VanadiumEnvironment ctx p) w e) /\
  (forall root e,
     returns V23Root w root -> fails_with (LoadConfig ctx) w e ->
     fails_with (VanadiumEnvironment ctx p) w e) /\
  (forall root config err,
     returns V23Root w root -> returns (LoadConfig ctx) w config ->
     OS p = "darwin" \/ OS p = "linux" ->
     fs_Stat w (filepath.Join [root; "third_party"; "cout"; "leveldb"])
       = Some err ->
     IsNotExist err = false ->
     let e := ErrStatDir
                (filepath.Join [root; "third_party"; "cout"; "leveldb"]) err in
     fails_with (VanadiumEnvironment ctx p) w e /\ kind e = IOError).
Proof.
  split; [| split].
  - intros e. apply VanadiumEnvironment_root_failure.
  - intros root e. apply VanadiumEnvironment_LoadConfig_failure.
  - intros root config err Hroot Hconfig Hos Hstat Hnot e.
    split; [| reflexivity].
    unfold fails_with.
    rewrite (VanadiumEnvironment_steps ctx p w root config Hroot Hconfig).
    apply bind_Err. unfold cgo_step.
    assert (wants_cgo p = true) as ->.
    { unfold wants_cgo. apply orb_true_iff. rewrite !bool_decide_eq_true.
      exact Hos. }
    rewrite setSyncbaseCgoEnv_run. fold (leveldb root) in Hstat.
    rewrite Hstat, Hnot. reflexivity.
Qed.

Lemma VanadiumEnvironment_first_failure_witness :
  fails_with (VanadiumEnvironment Sample.ctx Sample.arm_linux_v6)
             Sample.dangling (ErrEvalSymlinks "/v23") /\
  fails_with (VanadiumEnvironment Sample.ctx Sample.arm_linux_v6)
             Sample.no_tools (ErrToolNotFound "") /\
  fails_with (VanadiumEnvironment Sample.ctx Sample.arm_linux_v6)
             Sample.unreadable
             (ErrStatDir "/v23/third_party/cout/leveldb" Sample.denied).
Proof.
  split; [| split].
  - apply (proj1 (VanadiumEnvironment_first_failure _ _ _)). reflexivity.
  - apply (proj1 (proj2 (VanadiumEnvironment_first_failure _ _ _)) "/v23");
      reflexivity.
  - apply (proj2 (proj2 (VanadiumEnvironment_first_failure
                           Sample.ctx Sample.arm_linux_v6 Sample.unreadable))
             "/v23" Sample.the_config Sample.denied);
      [reflexivity | reflexivity | right; reflexivity | reflexivity
      | reflexivity].
Defined.

(** ** What a constructed snapshot keeps of the process environment *)

(** The variables environment construction may write, over all platforms. *)
Definition written_vars : list string :=
  ["GOPATH"; "VDLPATH"; "CGO_ENABLED"; "CGO_CFLAGS"; "CGO_LDFLAGS";
   "GOOS"; "GOARCH"; "GOARM"; "PATH"].

Lemma untouched_steps w root config p env1 env :
  returns V23Root w root ->
  cgo_step (with_workspaces (environ w) root config) root p w = (Ok env1, w) ->
  dispatch env1 p w = (Ok env, w) ->
  forall k,
    k ∉ ["GOPATH"; "VDLPATH"] -> k ∉ (if wants_cgo p then cgo_vars else []) ->
    k ∉ cross_vars ->
    env !! k = environ w !! k.
Proof.
  intros Hroot Hcgo Hdispatch k H1 H2 H3.
  rewrite (untouched_dispatch _ _ _ _ _ Hroot Hdispatch k H3).
  rewrite (untouched_cgo_step _ _ _ _ _ Hcgo k H2).
  apply (untouched_with_workspaces (environ w) root config k H1).
Qed.

(** X3.  A snapshot that [VanadiumEnvironment] returns differs from the
    process environment in at most nine variables: GOPATH, VDLPATH,
    CGO_ENABLED, CGO_CFLAGS, CGO_LDFLAGS, GOOS, GOARCH, GOARM and PATH.
    Every other variable, [V23_ROOT] among them, has the value it has in
    the process environment, or is not set if it is not set there; and
    when the OS of the platform is neither darwin nor linux, CGO_CFLAGS
    and CGO_LDFLAGS are as in the process environment too. *)
Theorem VanadiumEnvironment_frame (ctx : Context) (p : Platform)
    (w w' : World) (env : Snapshot) :
  VanadiumEnvironment ctx p w = (Ok env, w') ->
  untouched written_vars (environ w) env /\
  env !! rootEnv = environ w !! rootEnv /\
  (OS p <> "darwin" -> OS p <> "linux" ->
   env !! "CGO_CFLAGS" = environ w !! "CGO_CFLAGS" /\
   env !! "CGO_LDFLAGS" = environ w !! "CGO_LDFLAGS").
Proof.
  intros H.
  apply VanadiumEnvironment_Ok_inv in H
    as (_ & root & config & env1 & Hroot & _ & Hcgo & Hdispatch).
  pose proof (untouched_steps w root config p env1 env Hroot Hcgo Hdispatch)
    as Hkeep.
  assert (Hall : untouched written_vars (environ w) env).
  { intros k Hk. apply Hkeep.
    - intros Hin. apply Hk. revert Hin. apply sublist_names.
      unfold written_vars. repeat (apply Forall_cons; split; [names|]).
      apply Forall_nil. exact I.
    - intros Hin. apply Hk. destruct (wants_cgo p).
      + revert Hin. apply sublist_names. unfold written_vars, cgo_vars.
        repeat (apply Forall_cons; split; [names|]). apply Forall_nil. exact I.
      + apply elem_of_nil in Hin. destruct Hin.
    - intros Hin. apply Hk. revert Hin. apply sublist_names.
      unfold written_vars, cross_vars.
      repeat (apply Forall_cons; split; [names|]). apply Forall_nil. exact I. }
  split; [exact Hall | split].
  - apply Hall. unfold written_vars, rootEnv. names.
  - intros Hd Hl.
    assert (wants_cgo p = false) as Hno.
    { unfold wants_cgo. apply orb_false_iff.
      rewrite !bool_decide_eq_false. split; assumption. }
    rewrite Hno in Hkeep.
    split; apply Hkeep; try apply not_elem_of_nil; unfold cross_vars; names.
Qed.

Lemma VanadiumEnvironment_frame_witness :
  exists env,
    returns (VanadiumEnvironment Sample.ctx Sample.arm_linux_v6)
            Sample.host env /\
    env !! "V23_ROOT" = Some "/v23" /\ env !! "HOME" = None.
Proof.
  set (p := Sample.arm_linux_v6).
  set (env := Sample.snapshot_of (VanadiumEnvironment Sample.ctx p Sample.host)).
  assert (Hrun : returns (VanadiumEnvironment Sample.ctx p) Sample.host env)
    by (vm_compute; reflexivity).
  exists env. split; [exact Hrun|].
  destruct (VanadiumEnvironment_frame Sample.ctx p _ _ _ Hrun)
    as (Hframe & Hroot & _).
  split; [exact Hroot|].
  apply (Hframe "HOME"). unfold written_vars. names.
Defined.

(** [s'] has every variable that [s] has. *)
Definition keeps_vars (s s' : Snapshot) : Prop :=
  forall k, is_Some (s !! k) -> is_Some (s' !! k).

Lemma keeps_vars_refl s : keeps_vars s s.
Proof. intros k H. exact H. Qed.

Lemma keeps_vars_Set s s' key value :
  keeps_vars s s' -> keeps_vars s (Set_ s' key value).
Proof.
  intros H k Hk. destruct (decide (key = k)) as [->|Hne].
  - rewrite lookup_Set_eq. eauto.
  - rewrite lookup_Set_ne by exact Hne. apply H, Hk.
Qed.

Lemma keeps_vars_trans s1 s2 s3 :
  keeps_vars s1 s2 -> keeps_vars s2 s3 -> keeps_vars s1 s3.
Proof. intros H12 H23 k Hk. apply H23, H12, Hk. Qed.

Ltac keeps_tac :=
  repeat first [apply keeps_vars_refl | apply keeps_vars_Set].

(** X4.  Environment construction never removes a variable: every variable
    set in the process environment is set in the returned snapshot, and
    GOPATH and VDLPATH are set in it whether or not they were set
    before. *)
Theorem VanadiumEnvironment_keeps_vars (ctx : Context) (p : Platform)
    (w w' : World) (env : Snapshot) :
  VanadiumEnvironment ctx p w = (Ok env, w') ->
  keeps_vars (environ w) env /\
  is_Some (env !! "GOPATH") /\ is_Some (env !! "VDLPATH").
Proof.
  intros H.
  apply VanadiumEnvironment_Ok_inv in H
    as (_ & root & config & env1 & Hroot & _ & Hcgo & Hdispatch).
  assert (Hpaths : forall k, k ∉ cgo_vars -> k ∉ cross_vars ->
                     env !! k = with_workspaces (environ w) root config !! k).
  { intros k Hk1 Hk2.
    rewrite (untouched_dispatch _ _ _ _ _ Hroot Hdispatch k Hk2).
    apply (untouched_cgo_step _ _ _ _ _ Hcgo).
    destruct (wants_cgo p); [exact Hk1 | apply not_elem_of_nil]. }
  split.
  - apply (keeps_vars_trans _ (with_workspaces (environ w) root config)).
    { unfold with_workspaces, setVdlPath, setGoPath, SetTokens. keeps_tac. }
    apply (keeps_vars_trans _ env1).
    { apply cgo_step_Ok_inv in Hcgo as [[_ ->] | (_ & found & -> & _)].
      - apply keeps_vars_refl.
      - unfold cgo_env, SetTokens. keeps_tac. }
    apply (dispatch_Ok_inv env1 p w env root Hroot) in Hdispatch
      as [[_ ->] | [_ [(_ & _ & ->) | [(_ & _ & ->) | (_ & _ & ->)]]]].
    + apply keeps_vars_refl.
    + unfold arm_env, SetTokens. keeps_tac.
    + unfold android_env, SetTokens. keeps_tac.
    + unfold nacl_env. keeps_tac.
  - rewrite !Hpaths by (unfold cgo_vars, cross_vars; names).
    rewrite with_workspaces_GOPATH, with_workspaces_VDLPATH. eauto.
Qed.

Lemma VanadiumEnvironment_keeps_vars_witness :
  exists env,
    returns (VanadiumEnvironment Sample.ctx Sample.arm_linux_v6)
            Sample.host env /\
    is_Some (env !! "V23_ROOT") /\ is_Some (env !! "VDLPATH").
Proof.
  set (p := Sample.arm_linux_v6).
  set (env := Sample.snapshot_of (VanadiumEnvironment Sample.ctx p Sample.host)).
  assert (Hrun : returns (VanadiumEnvironment Sample.ctx p) Sample.host env)
    by (vm_compute; reflexivity).
  exists env. split; [exact Hrun|].
  destruct (VanadiumEnvironment_keeps_vars Sample.ctx p _ _ _ Hrun)
    as (Hkeeps & _ & Hvdl).
  split; [| exact Hvdl].
  apply Hkeeps. exists "/v23". reflexivity.
Defined.

(** ** The cross-compilation targets the claims leave open *)

Lemma not_wants_cgo p : OS p <> "darwin" -> OS p <> "linux" -> wants_cgo p = false.
Proof.
  intros Hd Hl. unfold wants_cgo. apply orb_false_iff.
  rewrite !bool_decide_eq_false. split; assumption.
Qed.

Lemma cgo_passes_other p w root :
  OS p <> "darwin" -> OS p <> "linux" -> cgo_passes w root p.
Proof. intros Hd Hl Hw. rewrite (not_wants_cgo p Hd Hl) in Hw. discriminate Hw. Qed.

(** X5.  For a 386/nacl or amd64p32/nacl platform that is not the host,
    construction succeeds whenever the root is found and the configuration
    loaded, and the snapshot has GOARCH and GOOS set to the platform's;
    apart from these and GOPATH and VDLPATH it is the process environment:
    GOARM, PATH and the CGO variables are not touched. *)
Theorem VanadiumEnvironment_nacl (ctx : Context) (p : Platform) (w : World) :
  Arch p = "386" \/ Arch p = "amd64p32" -> OS p = "nacl" ->
  ~ is_host w p ->
  (forall root config,
     returns V23Root w root -> returns (LoadConfig ctx) w config ->
     exists env, returns (VanadiumEnvironment ctx p) w env) /\
  (forall env w',
     VanadiumEnvironment ctx p w = (Ok env, w') ->
     env !! "GOARCH" = Some (Arch p) /\
     env !! "GOOS" = Some "nacl" /\
     untouched ["GOPATH"; "VDLPATH"; "GOARCH"; "GOOS"] (environ w) env).
Proof.
  intros Harch Hos Hnot.
  assert (Hd : OS p <> "darwin") by (rewrite Hos; discriminate).
  assert (Hl : OS p <> "linux") by (rewrite Hos; discriminate).
  split.
  - intros root config Hroot Hconfig.
    apply (VanadiumEnvironment_returns ctx p w root config Hroot Hconfig).
    + apply cgo_passes_other; assumption.
    + right. rewrite Hos.
      destruct Harch as [-> | ->]; unfold cross_targets; names.
  - intros env w' H.
    apply VanadiumEnvironment_Ok_inv in H
      as (_ & root & config & env1 & Hroot & _ & Hcgo & Hdispatch).
    apply cgo_step_Ok_inv in Hcgo as [[_ ->] | [Hw _]].
    2: { rewrite (not_wants_cgo p Hd Hl) in Hw. discriminate Hw. }
    apply (dispatch_Ok_inv _ p w env root Hroot) in Hdispatch
      as [[Hh _] | [_ [(_ & Ho & _) | [(_ & Ho & _) | (_ & _ & ->)]]]].
    + contradiction.
    + rewrite Hos in Ho. discriminate Ho.
    + rewrite Hos in Ho. discriminate Ho.
    + unfold nacl_env. split; [| split].
      * rewrite lookup_Set_ne by names. apply lookup_Set_eq.
      * rewrite lookup_Set_eq, Hos. reflexivity.
      * do 2 (apply untouched_Set; [names|]).
        eapply untouched_weaken; [| apply untouched_with_workspaces].
        subnames.
Qed.

Lemma VanadiumEnvironment_nacl_witness :
  exists env,
    returns (VanadiumEnvironment Sample.ctx (mkPlatform "amd64p32" "nacl" ""))
            Sample.host env /\
    env !! "GOARCH" = Some "amd64p32" /\ env !! "GOOS" = Some "nacl" /\
    env !! "PATH" = Some "/usr/bin:/bin" /\ env !! "CGO_ENABLED" = None.
Proof.
  set (p := mkPlatform "amd64p32" "nacl" "").
  assert (Hnot : ~ is_host Sample.host p) by (intros [Ha _]; discriminate Ha).
  destruct (VanadiumEnvironment_nacl Sample.ctx p Sample.host
              (or_intror eq_refl) eq_refl Hnot) as [Hret Hvals].
  destruct (Hret "/v23" Sample.the_config eq_refl eq_refl) as [env Hrun].
  exists env. split; [exact Hrun|].
  destruct (Hvals env _ Hrun) as (Harch & Hos & Hframe).
  split; [exact Harch | split; [exact Hos | split]].
  - apply (Hframe "PATH"). names.
  - apply (Hframe "CGO_ENABLED"). names.
Defined.

(** X6.  For every arm/android platform that is not the host, whatever its
    sub-architecture, construction succeeds whenever the root is found and
    the configuration loaded.  The snapshot has CGO_ENABLED [1], GOOS
    [android], GOARCH [arm], GOARM the sub-architecture without one
    leading [v], and one entry in front of the PATH tokens; the leveldb
    directory is not looked at, and outside GOPATH, VDLPATH and the five
    variables just named the snapshot is the process environment. *)
Theorem VanadiumEnvironment_android (ctx : Context) (p : Platform) (w : World) :
  Arch p = "arm" -> OS p = "android" -> ~ is_host w p ->
  (forall root config,
     returns V23Root w root -> returns (LoadConfig ctx) w config ->
     exists env, returns (VanadiumEnvironment ctx p) w env) /\
  (forall env w',
     VanadiumEnvironment ctx p w = (Ok env, w') ->
     exists root,
       returns V23Root w root /\
       env !! "CGO_ENABLED" = Some "1" /\
       env !! "GOOS" = Some "android" /\
       env !! "GOARCH" = Some "arm" /\
       env !! "GOARM" = Some (strings.TrimPrefix (SubArch p) "v") /\
       env !! "PATH" =
         Some (strings.Join
                 ([filepath.Join [root; "environment"; "android"; "go"; "bin"]]
                  ++ GetTokens (environ w) "PATH" ":") ":") /\
       untouched ["GOPATH"; "VDLPATH"; "CGO_ENABLED"; "GOOS"; "GOARCH";
                  "GOARM"; "PATH"] (environ w) env).
Proof.
  intros Harch Hos Hnot.
  assert (Hd : OS p <> "darwin") by (rewrite Hos; discriminate).
  assert (Hl : OS p <> "linux") by (rewrite Hos; discriminate).
  split.
  - intros root config Hroot Hconfig.
    apply (VanadiumEnvironment_returns ctx p w root config Hroot Hconfig).
    + apply cgo_passes_other; assumption.
    + right. rewrite Harch, Hos. unfold cross_targets. names.
  - intros env w' H.
    apply VanadiumEnvironment_Ok_inv in H
      as (_ & root & config & env1 & Hroot & _ & Hcgo & Hdispatch).
    exists root. split; [exact Hroot|].
    apply cgo_step_Ok_inv in Hcgo as [[_ ->] | [Hw _]].
    2: { rewrite (not_wants_cgo p Hd Hl) in Hw. discriminate Hw. }
    apply (dispatch_Ok_inv _ p w env root Hroot) in Hdispatch
      as [[Hh _] | [_ [(_ & Ho & _) | [(_ & _ & ->) | (_ & Ho & _)]]]].
    + contradiction.
    + rewrite Hos in Ho. discriminate Ho.
    + destruct (android_env_values (with_workspaces (environ w) root config)
                  p root) as (Hv1 & Hv2 & Hv3 & Hv4 & Hv5).
      rewrite Hos in Hv2. rewrite Harch in Hv3.
      split; [exact Hv1 | split; [exact Hv2 | split; [exact Hv3 |
        split; [exact Hv4 | split]]]].
      * rewrite Hv5. do 3 f_equal.
        apply (untouched_GetTokens _ _ _ "PATH" ":"
                 (untouched_with_workspaces (environ w) root config)).
        names.
      * apply (untouched_trans _ _ (with_workspaces (environ w) root config)).
        -- eapply untouched_weaken; [| apply untouched_with_workspaces].
           subnames.
        -- eapply untouched_weaken; [| apply untouched_android_env].
           unfold cross_vars. subnames.
    + rewrite Hos in Ho. discriminate Ho.
Qed.

Lemma VanadiumEnvironment_android_witness :
  exists env,
    returns (VanadiumEnvironment Sample.ctx (mkPlatform "arm" "android" ""))
            Sample.unreadable env /\
    env !! "GOARM" = Some "" /\
    env !! "CGO_CFLAGS" = None.
Proof.
  set (p := mkPlatform "arm" "android" "").
  assert (Hnot : ~ is_host Sample.unreadable p)
    by (intros [Ha _]; discriminate Ha).
  destruct (VanadiumEnvironment_android Sample.ctx p Sample.unreadable
              eq_refl eq_refl Hnot) as [Hret Hvals].
  destruct (Hret "/v23" Sample.the_config eq_refl eq_refl) as [env Hrun].
  exists env. split; [exact Hrun|].
  destruct (Hvals env _ Hrun) as (root & _ & _ & _ & _ & Harm & _ & Hframe).
  split; [exact Harm|].
  apply (Hframe "CGO_CFLAGS"). names.
Defined.

(** ** Manifest names and derived paths *)

(** X7.  For the empty name, a stat of the local manifest file that fails
    otherwise than by the file not existing ends the resolution with an
    [IOError]: there is no fallback to the default manifest. *)
Theorem ResolveManifestPath_stat_failure (w : World) (root : string)
    (err : os_error) :
  returns V23Root w root ->
  fs_Stat w (filepath.Join [root; ".local_manifest"]) = Some err ->
  IsNotExist err = false ->
  fails_with (ResolveManifestPath "") w (ErrStatManifest err) /\
  kind (ErrStatManifest err) = IOError /\
  ResolveManifestPath "" w <> ResolveManifestPath "default" w.
Proof.
  intros Hroot Hstat Hnot.
  pose proof (ResolveManifestPath_empty w root Hroot) as Hempty.
  rewrite Hstat, Hnot in Hempty.
  split; [exact Hempty | split; [reflexivity|]].
  rewrite Hempty, ResolveManifestPath_default.
  rewrite (ManifestFile_returns "default" w root Hroot). discriminate.
Qed.

Lemma ResolveManifestPath_stat_failure_witness :
  fails_with (ResolveManifestPath "") Sample.unreadable
             (ErrStatManifest Sample.denied).
Proof.
  apply (ResolveManifestPath_stat_failure Sample.unreadable "/v23"
           Sample.denied); reflexivity.
Defined.

Lemma IsAbs_inv path :
  filepath.IsAbs path = true -> exists rest, path = "/" +:+ rest.
Proof.
  destruct path as [|c rest]; [discriminate|].
  intros H. exists rest.
  destruct c as [[] [] [] [] [] [] [] []];
    first [discriminate H | reflexivity].
Qed.

Lemma IsAbs_slash body : filepath.IsAbs ("/" +:+ body) = true.
Proof. destruct body; reflexivity. Qed.

Lemma IsAbs_Clean path :
  filepath.IsAbs path = true -> filepath.IsAbs (filepath.Clean path) = true.
Proof.
  intros H. unfold filepath.Clean.
  destruct (decide (path = "")) as [->|_]; [discriminate H|].
  rewrite H. apply IsAbs_slash.
Qed.

(** A join that starts with an absolute element is absolute. *)
Lemma IsAbs_Join first rest :
  filepath.IsAbs first = true ->
  filepath.IsAbs (filepath.Join (first :: rest)) = true.
Proof.
  intros H. destruct (IsAbs_inv first H) as [tail ->].
  simpl. apply IsAbs_Clean. destruct rest as [|next rest].
  - apply IsAbs_slash.
  - apply (IsAbs_slash (tail +:+ "/" +:+ strings.Join (next :: rest) "/")).
Qed.

Lemma returns_bind_ret {A B} (m : M A) (f : A -> B) w a b :
  returns m w a -> returns (x <- m ;; ret (f x)) w b -> b = f a.
Proof.
  unfold returns. intros Ha Hb. rewrite (bind_Ok _ _ _ _ _ Ha) in Hb.
  injection Hb as <-. reflexivity.
Qed.

(** X8.  When the root resolves to an absolute path, every path derived
    from it is absolute: the local manifest file, the two snapshot
    directories, the manifest directory, every manifest file, and
    whatever [ResolveManifestPath] returns, for any name. *)
Theorem derived_paths_absolute (w : World) (root : string) :
  returns V23Root w root -> filepath.IsAbs root = true ->
  (forall path, returns LocalManifestFile w path ->
                filepath.IsAbs path = true) /\
  (forall path, returns LocalSnapshotDir w path ->
                filepath.IsAbs path = true) /\
  (forall path, returns ManifestDir w path -> filepath.IsAbs path = true) /\
  (forall name path, returns (ManifestFile name) w path ->
                     filepath.IsAbs path = true) /\
  (forall path, returns RemoteSnapshotDir w path ->
                filepath.IsAbs path = true) /\
  (forall name path, returns (ResolveManifestPath name) w path ->
                     filepath.IsAbs path = true).
Proof.
  intros Hroot Habs.
  pose proof (ManifestDir_returns w root Hroot) as Hdir.
  pose proof (IsAbs_Join root [".manifest"; "v2"] Habs) as Hdirabs.
  assert (Hfile : forall name path, returns (ManifestFile name) w path ->
                                    filepath.IsAbs path = true).
  { intros name path H.
    rewrite (returns_unique _ _ _ _ H (ManifestFile_returns name w root Hroot)).
    apply IsAbs_Join, Hdirabs. }
  split; [| split; [| split; [| split; [| split]]]].
  - intros path H.
    rewrite (returns_bind_ret V23Root _ w root path Hroot H).
    exact (IsAbs_Join root [".local_manifest"] Habs).
  - intros path H.
    rewrite (returns_bind_ret V23Root _ w root path Hroot H).
    exact (IsAbs_Join root [".snapshot"] Habs).
  - intros path H. rewrite (returns_unique _ _ _ _ H Hdir). exact Hdirabs.
  - exact Hfile.
  - intros path H.
    rewrite (returns_bind_ret ManifestDir _ w _ path Hdir H).
    exact (IsAbs_Join _ ["snapshot"] Hdirabs).
  - intros name path H. unfold returns in H.
    destruct (decide (name = "")) as [->|Hne].
    + rewrite (ResolveManifestPath_empty w root Hroot) in H.
      destruct (fs_Stat w _) as [err|].
      * destruct (IsNotExist err); [| discriminate H].
        apply (Hfile "default" path H).
      * injection H as <-. exact (IsAbs_Join root [".local_manifest"] Habs).
    + destruct (filepath.IsAbs name) eqn:Hname.
      * pose proof (ResolveManifestPath_abs name w Hname) as Hn.
        unfold returns in Hn. rewrite Hn in H. injection H as <-. exact Hname.
      * rewrite (ResolveManifestPath_rel name w Hne Hname) in H.
        apply (Hfile name path H).
Qed.

Lemma derived_paths_absolute_witness :
  filepath.IsAbs "/v23/.manifest/v2" = true /\
  filepath.IsAbs "/v23/.manifest/v2/default" = true.
Proof.
  destruct (derived_paths_absolute Sample.host "/v23" eq_refl eq_refl)
    as (_ & _ & Hdir & _ & _ & Hresolve).
  split.
  - apply Hdir. reflexivity.
  - apply (Hresolve ""). unfold returns.
    rewrite (ResolveManifestPath_empty Sample.host "/v23" eq_refl).
    reflexivity.
Defined.

Lemma bind_fst {A B} (m : M A) (k : A -> M B) w :
  readonly m ->
  (bind m k w).1 =
  match (m w).1 with
  | Ok a => (k a w).1
  | Err e => Err e
  end.
Proof.
  intros Hro. unfold bind. rewrite (readonly_run m w Hro). simpl.
  destruct (m w).1; reflexivity.
Qed.

Lemma V23Root_with_Stat st w :
  (V23Root (Sample.with_Stat st w)).1 = (V23Root w).1.
Proof.
  destruct w as [vars arch os name symlinks stat0 files manifests json].
  unfold V23Root, bind, os_Getenv, filepath_EvalSymlinks, gets,
    Sample.with_Stat.
  cbv beta iota delta [environ fs_EvalSymlinks].
  destruct (decide (default "" (vars !! rootEnv) = "")); [reflexivity|].
  destruct (symlinks _); reflexivity.
Qed.

Lemma ManifestFile_with_Stat name st w :
  (ManifestFile name (Sample.with_Stat st w)).1 = (ManifestFile name w).1.
Proof.
  unfold ManifestFile, ManifestDir.
  rewrite !bind_fst by eauto with readonly.
  rewrite V23Root_with_Stat. destruct (V23Root w).1; reflexivity.
Qed.

(** X9.  A name that is not empty is resolved without a look at the file
    system beyond the root lookup: whatever [os.Stat] answers, the result
    is the same.  In particular the manifest file a name resolves to, and
    the default manifest the empty name falls back to, need not exist. *)
Theorem ResolveManifestPath_no_stat (name : string) (w : World)
    (st : string -> option os_error) :
  name <> "" ->
  (ResolveManifestPath name (Sample.with_Stat st w)).1 =
  (ResolveManifestPath name w).1.
Proof.
  intros Hne. rewrite !ResolveManifestPath_eq.
  destruct (decide (name = "")) as [|_]; [contradiction|].
  destruct (filepath.IsAbs name); [reflexivity|].
  apply ManifestFile_with_Stat.
Qed.

Lemma ResolveManifestPath_no_stat_witness :
  (ResolveManifestPath "default" (Sample.with_Stat (fun _ => None) Sample.host)).1
  = Ok "/v23/.manifest/v2/default".
Proof.
  rewrite (ResolveManifestPath_no_stat "default" Sample.host (fun _ => None)).
  - rewrite ResolveManifestPath_default. reflexivity.
  - discriminate.
Defined.

(** ** The data directory *)

(** X10.  What the not-found errors of [DataDirPath] carry.  For a tool
    that is not in the manifest the error is built from the value the
    failed lookup left, the zero [Tool]: it carries the empty name, whatever
    tool was asked for.  For a tool whose project is not in the manifest
    the error carries the name of that project. *)
Theorem DataDirPath_not_found (ctx : Context) (w : World)
    (projects : Projects) (tools : Tools) (toolName : string) :
  manifest w ctx = Ok (projects, tools) -> toolName <> "" ->
  (tools !! toolName = None ->
     fails_with (DataDirPath ctx toolName) w (ErrToolNotFound "")) /\
  (forall tool,
     tools !! toolName = Some tool ->
     projects !! Tool.Project tool = None ->
     fails_with (DataDirPath ctx toolName) w
                (ErrProjectNotFound (Tool.Project tool))).
Proof.
  intros Hm Hne.
  pose proof (DataDirPath_manifest ctx toolName w projects tools Hm) as Hdir.
  unfold looked_up in Hdir.
  destruct (decide (toolName = "")) as [|_]; [contradiction|].
  split.
  - intros Htool. rewrite Htool in Hdir. exact Hdir.
  - intros tool Htool Hproject. rewrite Htool, Hproject in Hdir. exact Hdir.
Qed.

Lemma DataDirPath_not_found_witness :
  fails_with (DataDirPath Sample.ctx "presubmit") Sample.host
             (ErrToolNotFound "") /\
  fails_with (DataDirPath Sample.ctx "v23")
    (Sample.with_manifest
       (fun _ => Ok (∅, <["v23" := Tool.mk "v23" "devtools" "data"]> ∅))
       Sample.host)
    (ErrProjectNotFound "devtools").
Proof.
  split.
  - destruct (DataDirPath_not_found Sample.ctx Sample.host _ _ "presubmit"
                eq_refl) as [H _]; [discriminate|].
    apply H. reflexivity.
  - set (w := Sample.with_manifest _ _).
    destruct (DataDirPath_not_found Sample.ctx w _ _ "v23" eq_refl)
      as [_ H]; [discriminate|].
    apply (H (Tool.mk "v23" "devtools" "data")); reflexivity.
Defined.

Lemma BuildCopRotationPath_dataDir ctx w :
  BuildCopRotationPath ctx w =
  match (DataDirPath ctx (tool_Name w) w).1 with
  | Ok dataDir => (Ok (filepath.Join [dataDir; "buildcop.xml"]), w)
  | Err e => (Err e, w)
  end.
Proof.
  unfold BuildCopRotationPath.
  rewrite (bind_Ok _ _ w (tool_Name w) w) by reflexivity.
  unfold bind.
  rewrite (readonly_run _ w (readonly_DataDirPath ctx (tool_Name w))).
  simpl. destruct (DataDirPath ctx (tool_Name w) w).1; reflexivity.
Qed.

(** X11.  [BuildCopRotationPath] and [LoadConfig] use the same data
    directory, that of the tool [tool.Name]: the rotation file is
    [buildcop.xml] in the directory [DataDirPath] returns, a failure of
    [DataDirPath] is the failure of both, and whenever [LoadConfig]
    returns a configuration the rotation path is the sibling of the
    [conf.json] that was read. *)
Theorem BuildCopRotationPath_beside_config (ctx : Context) (w : World) :
  (forall dataDir,
     returns (DataDirPath ctx (tool_Name w)) w dataDir ->
     returns (BuildCopRotationPath ctx) w
             (filepath.Join [dataDir; "buildcop.xml"])) /\
  (forall e,
     fails_with (DataDirPath ctx (tool_Name w)) w e ->
     fails_with (BuildCopRotationPath ctx) w e /\
     fails_with (LoadConfig ctx) w e) /\
  (forall config,
     returns (LoadConfig ctx) w config ->
     exists dataDir configBytes,
       returns (BuildCopRotationPath ctx) w
               (filepath.Join [dataDir; "buildcop.xml"]) /\
       fs_ReadFile w (filepath.Join [dataDir; "conf.json"]) = inr configBytes /\
       json_Unmarshal w configBytes = inr config).
Proof.
  pose proof (BuildCopRotationPath_dataDir ctx w) as Hbuild.
  pose proof (readonly_run _ w (readonly_DataDirPath ctx (tool_Name w)))
    as Hrun.
  split; [| split].
  - intros dataDir Hdir. unfold returns in *. rewrite Hdir in Hbuild.
    exact Hbuild.
  - intros e Hdir. split.
    + unfold fails_with in *. rewrite Hdir in Hbuild. exact Hbuild.
    + apply LoadConfig_dataDir_failure, Hdir.
  - intros config Hload.
    destruct (DataDirPath ctx (tool_Name w) w).1 as [dataDir|e].
    + exists dataDir. unfold returns in Hload.
      rewrite (LoadConfig_dataDir ctx w dataDir Hrun) in Hload.
      cbv zeta in Hload.
      destruct (fs_ReadFile w _) as [err|configBytes]; [discriminate Hload|].
      exists configBytes. split; [exact Hbuild | split; [reflexivity|]].
      destruct (json_Unmarshal w configBytes) as [err|config'];
        [discriminate Hload|].
      injection Hload as ->. reflexivity.
    + pose proof (LoadConfig_dataDir_failure ctx w e Hrun) as Hfail.
      unfold returns, fails_with in *. rewrite Hfail in Hload.
      discriminate Hload.
Qed.

Lemma BuildCopRotationPath_beside_config_witness :
  returns (BuildCopRotationPath Sample.ctx) Sample.host
          "/v23/release/go/src/v.io/x/devtools/data/buildcop.xml" /\
  fails_with (BuildCopRotationPath Sample.ctx) Sample.no_tools
             (ErrToolNotFound "").
Proof.
  split.
  - apply (proj1 (BuildCopRotationPath_beside_config Sample.ctx Sample.host)
             "/v23/release/go/src/v.io/x/devtools/data").
    reflexivity.
  - apply (proj1 (proj2 (BuildCopRotationPath_beside_config
                           Sample.ctx Sample.no_tools))).
    reflexivity.
Defined.

(** ** The sub-architecture *)

Lemma readonly_cgo_step env root p : readonly (cgo_step env root p).
Proof. unfold cgo_step. destruct (wants_cgo p); eauto with readonly. Qed.

(** X12.  The sub-architecture of the platform is read for the arm targets
    only: for the host platform and for the two nacl targets, two
    platforms with the same architecture and OS get the same outcome,
    snapshot or error, whatever their sub-architectures. *)
Theorem VanadiumEnvironment_ignores_SubArch (ctx : Context) (p p' : Platform)
    (w : World) :
  Arch p = Arch p' -> OS p = OS p' ->
  is_host w p \/ ((Arch p = "386" \/ Arch p = "amd64p32") /\ OS p = "nacl") ->
  VanadiumEnvironment ctx p w = VanadiumEnvironment ctx p' w.
Proof.
  intros Harch Hos Hcase.
  pose proof (readonly_run _ w readonly_V23Root) as Hroot.
  destruct (V23Root w).1 as [root|e].
  2: { rewrite (VanadiumEnvironment_root_failure ctx p w e Hroot).
       rewrite (VanadiumEnvironment_root_failure ctx p' w e Hroot).
       reflexivity. }
  pose proof (readonly_run _ w (readonly_LoadConfig ctx)) as Hconfig.
  destruct (LoadConfig ctx w).1 as [config|e].
  2: { rewrite (VanadiumEnvironment_LoadConfig_failure ctx p w root e
                  Hroot Hconfig).
       rewrite (VanadiumEnvironment_LoadConfig_failure ctx p' w root e
                  Hroot Hconfig).
       reflexivity. }
  rewrite !(VanadiumEnvironment_steps ctx _ w root config Hroot Hconfig).
  set (env0 := with_workspaces (environ w) root config).
  assert (Hcgo : cgo_step env0 root p' = cgo_step env0 root p).
  { unfold cgo_step, wants_cgo. rewrite Hos. reflexivity. }
  rewrite Hcgo. unfold bind.
  rewrite (readonly_run _ w (readonly_cgo_step env0 root p)).
  destruct (cgo_step env0 root p w).1 as [env1|e]; [| reflexivity].
  destruct (bool_decide (Arch p = GOARCH w) && bool_decide (OS p = GOOS w))
    eqn:Ehost.
  - apply host_test in Ehost.
    assert (Hhost' : is_host w p').
    { destruct Ehost as [Ha Ho]. split; congruence. }
    rewrite (dispatch_host env1 p w Ehost), (dispatch_host env1 p' w Hhost').
    reflexivity.
  - assert (Hnot : ~ is_host w p).
    { intros Hh. apply host_test in Hh. rewrite Hh in Ehost. discriminate. }
    assert (Hnot' : ~ is_host w p').
    { intros [Ha Ho]. apply Hnot. split; congruence. }
    destruct Hcase as [Hh | [Ha Ho]]; [contradiction|].
    rewrite (dispatch_cross env1 p w Hnot), (dispatch_cross env1 p' w Hnot').
    rewrite <- Harch, <- Hos. rewrite Ho.
    assert (bool_decide (Arch p = "386") || bool_decide (Arch p = "amd64p32")
            = true) as Htarget.
    { apply orb_true_iff. rewrite !bool_decide_eq_true. exact Ha. }
    rewrite Htarget. simpl.
    destruct (bool_decide (Arch p = "arm")); simpl;
      unfold setNaclEnv, ret; rewrite <- Harch, <- Hos; reflexivity.
Qed.

Lemma VanadiumEnvironment_ignores_SubArch_witness :
  VanadiumEnvironment Sample.ctx (mkPlatform "amd64" "linux" "") Sample.host =
  VanadiumEnvironment Sample.ctx (mkPlatform "amd64" "linux" "v7") Sample.host.
Proof.
  apply VanadiumEnvironment_ignores_SubArch; [reflexivity | reflexivity |].
  left. split; reflexivity.
Defined.
